(** * Crypto-Api-Test-Assignment: the token-contract resolution pipeline

    A shallow embedding of [app/services/openai_service.py] and
    [app/services/report_generator.py].

    The coroutines of the source perform three kinds of effects that matter
    for their results: HTTP GET requests against the providers, pauses
    ([asyncio.sleep]) and one generative-text call.  They are modelled in a
    state-and-exception monad whose state is the chronological trace of the
    effects performed so far; the answers of the outside world are given by
    a [providers] record whose functions see that trace, so that a provider
    may answer the same request differently on successive calls (a rate
    limit that clears, a scripted mock).  Calls to [logger] do not influence
    any result and are left out of the trace. *)

From Stdlib Require Import String Ascii List ZArith NArith Bool Lia.
From Stdlib Require Import Floats.SpecFloat.
From Stdlib Require Import DecimalString.
Import ListNotations.

Set Warnings "-register-all".
Local Open Scope string_scope.
Local Open Scope Z_scope.

(* ===================================================================== *)
(** ** Python values *)
(* ===================================================================== *)

(** The values produced by [response.json()], which are also the values
    the functions of the source return: [None], booleans, integers, floats
    (IEEE binary64, as [spec_float]), strings, lists and dictionaries (in
    insertion order, keys unique after parsing). *)
Inductive json : Type :=
| JNull
| JBool (b : bool)
| JInt (n : Z)
| JFloat (f : spec_float)
| JStr (s : string)
| JArr (l : list json)
| JObj (m : list (string * json)).

(** Python truthiness, as used by [if x:] and [if not x:]. *)
Definition truthy (v : json) : bool :=
  match v with
  | JNull => false
  | JBool b => b
  | JInt n => negb (n =? 0)
  | JFloat (S754_zero _) => false
  | JFloat _ => true
  | JStr s => negb (String.eqb s "")
  | JArr l => match l with [] => false | _ => true end
  | JObj m => match m with [] => false | _ => true end
  end.

Definition py_type_name (v : json) : string :=
  match v with
  | JNull => "NoneType"
  | JBool _ => "bool"
  | JInt _ => "int"
  | JFloat _ => "float"
  | JStr _ => "str"
  | JArr _ => "list"
  | JObj _ => "dict"
  end.

(** The exceptions that can occur in the modelled code.  [RequestError]
    stands for whatever the HTTP client or the generative-text client
    raises; every constructor is an instance of Python's [Exception]. *)
Inductive exn : Type :=
| JSONDecodeError (msg : string)
| AttributeError (msg : string)
| KeyError (key : json)
| TypeError (msg : string)
| IndexError (msg : string)
| RequestError (msg : string).

Inductive result (A : Type) : Type :=
| Ok (a : A)
| Raise (e : exn).
Arguments Ok {A} a.
Arguments Raise {A} e.

(** [isinstance(e, json.JSONDecodeError)] *)
Definition is_JSONDecodeError (e : exn) : bool :=
  match e with JSONDecodeError _ => true | _ => false end.

(* ===================================================================== *)
(** ** Strings *)
(* ===================================================================== *)

(** [str.lower] and [str.upper].  Strings are sequences of bytes; the
    letters A-Z and a-z are mapped, every other byte is kept (ticker
    symbols and chain names are ASCII). *)
Definition ascii_lower (c : ascii) : ascii :=
  let n := N_of_ascii c in
  if ((65 <=? n) && (n <=? 90))%N then ascii_of_N (n + 32) else c.

Definition ascii_upper (c : ascii) : ascii :=
  let n := N_of_ascii c in
  if ((97 <=? n) && (n <=? 122))%N then ascii_of_N (n - 32) else c.

Fixpoint lower (s : string) : string :=
  match s with
  | EmptyString => EmptyString
  | String c r => String (ascii_lower c) (lower r)
  end.

Fixpoint upper (s : string) : string :=
  match s with
  | EmptyString => EmptyString
  | String c r => String (ascii_upper c) (upper r)
  end.

(** [x in [s1, s2, ...]] for strings. *)
Definition py_in (x : string) (l : list string) : bool :=
  existsb (String.eqb x) l.

(** [str(n)] for an integer. *)
Definition str_of_Z (n : Z) : string :=
  NilZero.string_of_int (Z.to_int n).

(** [repr(k)] for the keys that occur in a [KeyError] here. *)
Definition str_of_exn (e : exn) : string :=
  match e with
  | JSONDecodeError msg => msg
  | AttributeError msg => msg
  | KeyError (JStr k) => "'" ++ k ++ "'"
  | KeyError (JInt n) => str_of_Z n
  | KeyError _ => ""
  | TypeError msg => msg
  | IndexError msg => msg
  | RequestError msg => msg
  end.

(* ===================================================================== *)
(** ** Operations on Python values that may raise *)
(* ===================================================================== *)

Fixpoint assoc (k : string) (m : list (string * json)) : option json :=
  match m with
  | [] => None
  | (k', v) :: r => if String.eqb k k' then Some v else assoc k r
  end.

(** [d.get(k, default)]: defined on dictionaries only. *)
Definition py_get (d : json) (k : string) (default : json) : result json :=
  match d with
  | JObj m => Ok (match assoc k m with Some v => v | None => default end)
  | _ => Raise (AttributeError
                  ("'" ++ py_type_name d ++ "' object has no attribute 'get'"))
  end.

(** [x[0]] *)
Definition py_first (x : json) : result json :=
  match x with
  | JArr (v :: _) => Ok v
  | JArr [] => Raise (IndexError "list index out of range")
  | JStr (String c _) => Ok (JStr (String c EmptyString))
  | JStr EmptyString => Raise (IndexError "string index out of range")
  | JObj _ => Raise (KeyError (JInt 0))
  | _ => Raise (TypeError
                  ("'" ++ py_type_name x ++ "' object is not subscriptable"))
  end.

(** [x[k]] for a string key [k] *)
Definition py_item (x : json) (k : string) : result json :=
  match x with
  | JObj m => match assoc k m with
              | Some v => Ok v
              | None => Raise (KeyError (JStr k))
              end
  | JArr _ => Raise (TypeError "list indices must be integers or slices, not str")
  | JStr _ => Raise (TypeError "string indices must be integers, not 'str'")
  | _ => Raise (TypeError
                  ("'" ++ py_type_name x ++ "' object is not subscriptable"))
  end.

(** [len(x)] *)
Definition py_len (x : json) : result Z :=
  match x with
  | JStr s => Ok (Z.of_nat (String.length s))
  | JArr l => Ok (Z.of_nat (List.length l))
  | JObj m => Ok (Z.of_nat (List.length m))
  | _ => Raise (TypeError
                  ("object of type '" ++ py_type_name x ++ "' has no len()"))
  end.

(* ===================================================================== *)
(** ** The outside world *)
(* ===================================================================== *)

(** An HTTP request, by endpoint and interpolated values; the comment gives
    the URL the source formats.  A token id or a contract address that is
    interpolated is whatever value the previous provider returned. *)
Inductive request : Type :=
| CoingeckoSearch (query : string)
   (* https://api.coingecko.com/api/v3/search?query={query} *)
| CoingeckoCoin (token_id : json)
   (* https://api.coingecko.com/api/v3/coins/{token_id} *)
| EthplorerSearch (symbol : string)
   (* https://api.ethplorer.io/search?query={symbol}&apiKey=freekey *)
| MoralisPrice (contract_address : json) (chain : string)
   (* https://deep-index.moralis.io/api/v2.2/erc20/{contract_address}/price?chain={chain},
      sent with HEADERS *).

(** What [response.json()] gives: the parsed body, or a [JSONDecodeError]
    with its message when the body is not JSON. *)
Inductive body : Type :=
| Malformed (msg : string)
| Parsed (data : json).

Record response : Type := mkResponse {
  status_code : Z;
  text : string;
  parsed : body
}.

(** The prompt of the report generator: the fixed template of the source
    with the four interpolated values. *)
Record prompt : Type := mkPrompt {
  prompt_symbol : string;
  prompt_price : json;
  prompt_change : json;
  prompt_volume : json
}.

Inductive event : Type :=
| EGet (r : request)
| ESleep (seconds : Z)
| EChat (model : string) (p : prompt).

Definition trace := list event.

(** The providers answer a request knowing everything that happened
    before.  [http_get] is [client.get(url)]: a response, whatever its
    status, or an exception.  [chat_create] is
    [client.chat.completions.create(...)] followed by the extraction of the
    contents of [response.choices]. *)
Record providers : Type := mkProviders {
  http_get : trace -> request -> result response;
  chat_create : trace -> string -> prompt -> result (list json)
}.

(* ===================================================================== *)
(** ** The monad of the coroutines *)
(* ===================================================================== *)

Definition M (A : Type) : Type := trace -> result A * trace.

Definition ret {A} (a : A) : M A := fun tr => (Ok a, tr).

Definition raise {A} (e : exn) : M A := fun tr => (Raise e, tr).

Definition bind {A B} (m : M A) (k : A -> M B) : M B :=
  fun tr =>
    match m tr with
    | (Ok a, tr') => k a tr'
    | (Raise e, tr') => (Raise e, tr')
    end.

(** [try: m  except <handled>: h] *)
Definition try_except {A} (m : M A) (handled : exn -> bool) (h : exn -> M A)
  : M A :=
  fun tr =>
    match m tr with
    | (Ok a, tr') => (Ok a, tr')
    | (Raise e, tr') => if handled e then h e tr' else (Raise e, tr')
    end.

Definition lift {A} (r : result A) : M A := fun tr => (r, tr).

Declare Scope py_scope.
Delimit Scope py_scope with py.
Notation "x <- m ;; k" := (bind m (fun x => k))
  (at level 61, m at next level, right associativity) : py_scope.
Notation "m ;; k" := (bind m (fun _ => k))
  (at level 61, right associativity) : py_scope.
Local Open Scope py_scope.

(** [except Exception] *)
Definition any_exception (_ : exn) : bool := true.

(* ===================================================================== *)
(** ** app/services/openai_service.py *)
(* ===================================================================== *)

(** Mapping from our chain parameter to Coingecko platform keys *)
Definition PLATFORM_MAPPING : list (string * string) :=
  [ ("eth", "ethereum");
    ("bsc", "binance-smart-chain");
    ("polygon", "polygon");
    ("avalanche", "avalanche");
    ("fantom", "fantom") ].

(** [PLATFORM_MAPPING.get(chain, default)] *)
Fixpoint mapping_get (m : list (string * string)) (k default : string)
  : string :=
  match m with
  | [] => default
  | (k', v) :: r => if String.eqb k k' then v else mapping_get r k default
  end.

(** [range(a, b)] *)
Definition py_range (a b : Z) : list Z :=
  map (fun i => a + Z.of_nat i) (seq 0 (Z.to_nat (b - a))).

(** [response.json()] *)
Definition response_json (r : response) : M json :=
  match parsed r with
  | Parsed data => ret data
  | Malformed msg => raise (JSONDecodeError msg)
  end.

(** [await asyncio.sleep(seconds)] *)
Definition sleep (seconds : Z) : M unit :=
  fun tr => (Ok tt, (tr ++ [ESleep seconds])%list).

Definition WETH_ADDRESS : string :=
  "0xC02aaa39b223FE8D0A0E5C4F27eAD9083C756Cc2".

Section Services.

Variable P : providers.

(** [async with httpx.AsyncClient() as client: response = await client.get(url)].
    The request is recorded whether it is answered or raises. *)
Definition client_get (r : request) : M response :=
  fun tr => (http_get P tr r, (tr ++ [EGet r])%list).

(** The body of [for attempt in range(1, retries + 1)] in [get_token_id],
    and the two statements after the loop when the range is exhausted. *)
Fixpoint get_token_id_loop (url : request) (attempts : list Z) : M json :=
  match attempts with
  | [] => ret JNull
  | _attempt :: rest =>
      response <- client_get url;;
      if status_code response =? 429 then
        sleep 2;;
        get_token_id_loop url rest
      else if negb (status_code response =? 200) then
        ret JNull
      else
        data <- response_json response;;
        coins <- lift (py_get data "coins" (JArr []));;
        if negb (truthy coins) then
          ret JNull
        else
          first <- lift (py_first coins);;
          token_id <- lift (py_item first "id");;
          ret token_id
  end.

Definition get_token_id (symbol : string) : M json :=
  let url := CoingeckoSearch (lower symbol) in
  let retries := 3 in
  get_token_id_loop url (py_range 1 (retries + 1)).

Definition _get_contract_from_coingecko (token_id : json) (query chain : string)
  : M json :=
  if negb (truthy token_id) then
    ret JNull
  else
    response <- client_get (CoingeckoCoin token_id);;
    if negb (status_code response =? 200) then
      ret JNull
    else
      data <- response_json response;;
      let platform_key := mapping_get PLATFORM_MAPPING chain "ethereum" in
      platforms <- lift (py_get data "platforms" (JObj []));;
      contract_address <- lift (py_get platforms platform_key JNull);;
      ret contract_address.

(** [for query in wrapped_variants] of [get_token_contract]: [Some a] when
    the loop body returns [a], [None] when the loop runs to its end. *)
Fixpoint wrapped_loop (wrapped_variants : list string) (chain : string)
  : M (option json) :=
  match wrapped_variants with
  | [] => ret None
  | query :: rest =>
      wrapped_token_id <- get_token_id query;;
      contract_address <-
        _get_contract_from_coingecko wrapped_token_id query chain;;
      if truthy contract_address then
        ret (Some contract_address)
      else
        wrapped_loop rest chain
  end.

(** The [try ... except Exception] block of [get_token_contract] together
    with the final [return None]: the address when the block returns one,
    [None] on every other path through the block or its handler. *)
Definition ethplorer_fallback (symbol : string) : M json :=
  try_except
    (response <- client_get (EthplorerSearch symbol);;
     if status_code response =? 200 then
       data <- response_json response;;
       tokens <- lift (py_get data "tokens" JNull);;
       nonempty <- (if truthy tokens
                    then n <- lift (py_len tokens);; ret (0 <? n)
                    else ret false);;
       if nonempty : bool then
         first <- lift (py_first tokens);;
         contract_address <- lift (py_get first "address" JNull);;
         if truthy contract_address then
           ret contract_address
         else
           ret JNull
       else
         ret JNull
     else
       ret JNull)
    any_exception
    (fun _ => ret JNull).

Definition get_token_contract (symbol chain : string) : M json :=
  if py_in (upper symbol) ["ETH"; "ETHEREUM"] then
    ret (JStr WETH_ADDRESS)
  else if py_in (upper symbol) ["SOL"; "SOLANA"; "XLM"; "STELLAR"] then
    ret JNull
  else
    token_id <- get_token_id symbol;;
    contract_address <- _get_contract_from_coingecko token_id symbol chain;;
    if truthy contract_address then
      ret contract_address
    else
      let wrapped_variants :=
        [ "wrapped " ++ symbol; "w" ++ lower symbol; "wrapped-" ++ lower symbol ]
      in
      found <- wrapped_loop wrapped_variants chain;;
      match found with
      | Some contract_address => ret contract_address
      | None => ethplorer_fallback symbol
      end.

Definition get_crypto_metadata (symbol chain : string) : M json :=
  contract_address <- get_token_contract symbol chain;;
  if negb (truthy contract_address) then
    ret (JObj [ ("error",
                 JStr ("Unable to retrieve contract address for token "
                       ++ symbol ++ " on chain " ++ chain)) ])
  else
    response <- client_get (MoralisPrice contract_address chain);;
    if negb (status_code response =? 200) then
      ret (JObj [ ("error", JStr ("Moralis API error. Code: "
                                  ++ str_of_Z (status_code response)));
                  ("response", JStr (text response)) ])
    else
      try_except
        (data <- response_json response;;
         tokenName <- lift (py_get data "tokenName" JNull);;
         tokenSymbol <- lift (py_get data "tokenSymbol" JNull);;
         tokenLogo <- lift (py_get data "tokenLogo" JNull);;
         tokenDecimals <- lift (py_get data "tokenDecimals" JNull);;
         nativePrice <- lift (py_get data "nativePrice" JNull);;
         usdPrice <- lift (py_get data "usdPrice" JNull);;
         exchangeName <- lift (py_get data "exchangeName" JNull);;
         exchangeAddress <- lift (py_get data "exchangeAddress" JNull);;
         tokenAddress <- lift (py_get data "tokenAddress" JNull);;
         let result :=
           JObj [ ("tokenName", tokenName);
                  ("tokenSymbol", tokenSymbol);
                  ("tokenLogo", tokenLogo);
                  ("tokenDecimals", tokenDecimals);
                  ("nativePrice", nativePrice);
                  ("usdPrice", usdPrice);
                  ("exchangeName", exchangeName);
                  ("exchangeAddress", exchangeAddress);
                  ("tokenAddress", tokenAddress) ] in
         address <- lift (py_item result "tokenAddress");;
         if truthy address then
           ret result
         else
           ret (JObj [ ("error", JStr "Contract address not found") ]))
        any_exception
        (fun e =>
           ret (JObj [ ("error",
                        JStr ("JSON processing error: " ++ str_of_exn e)) ])).

Definition get_crypto_price (symbol chain : string) : M json :=
  contract_address <- get_token_contract symbol chain;;
  if negb (truthy contract_address) then
    ret (JObj [ ("error",
                 JStr ("Contract address not found for token " ++ symbol
                       ++ " on chain " ++ chain
                       ++ ". Moralis data unavailable.")) ])
  else
    response <- client_get (MoralisPrice contract_address chain);;
    if negb (status_code response =? 200) then
      ret (JObj [ ("error", JStr ("Moralis API error. Code: "
                                  ++ str_of_Z (status_code response)));
                  ("response", JStr (text response)) ])
    else
      try_except
        (data <- response_json response;;
         current_price <- lift (py_get data "usdPrice" (JStr "N/A"));;
         price_change_24h <- lift (py_get data "priceChange" (JStr "N/A"));;
         price_change_percent <-
           lift (py_get data "priceChangePercent" (JStr "N/A"));;
         high_24h <- lift (py_get data "highPrice" (JStr "N/A"));;
         low_24h <- lift (py_get data "lowPrice" (JStr "N/A"));;
         volume <- lift (py_get data "volume" (JStr "N/A"));;
         ret (JObj [ ("symbol", JStr symbol);
                     ("current_price", current_price);
                     ("price_change_24h", price_change_24h);
                     ("price_change_percent", price_change_percent);
                     ("high_24h", high_24h);
                     ("low_24h", low_24h);
                     ("volume", volume);
                     ("source", JStr "Moralis");
                     ("raw_response", data) ]))
        is_JSONDecodeError
        (fun _ =>
           ret (JObj [ ("error", JStr "Invalid JSON response from Moralis API");
                       ("response", JStr (text response)) ])).

(* ===================================================================== *)
(** ** app/services/report_generator.py *)
(* ===================================================================== *)

(** [client.chat.completions.create(model=..., messages=[...])], giving the
    contents of the returned choices. *)
Definition chat_completions_create (model : string) (p : prompt)
  : M (list json) :=
  fun tr => (chat_create P tr model p, (tr ++ [EChat model p])%list).

Definition generate_crypto_report (symbol : string) : M json :=
  data <- get_crypto_price symbol "eth";;
  price <- lift (py_item data "current_price");;
  change <- lift (py_item data "price_change_percent");;
  vol <- lift (py_item data "volume");;
  let prompt := mkPrompt symbol price change vol in
  choices <- chat_completions_create "gpt-4-1106-preview" prompt;;
  report_summary <- lift (py_first (JArr choices));;
  current_price <- lift (py_get data "current_price" (JStr "N/A"));;
  price_change_percent <-
    lift (py_get data "price_change_percent" (JStr "N/A"));;
  high_24h <- lift (py_get data "high_24h" (JStr "N/A"));;
  low_24h <- lift (py_get data "low_24h" (JStr "N/A"));;
  volume <- lift (py_get data "volume" (JStr "N/A"));;
  source <- lift (py_get data "source" (JStr "Unknown"));;
  ret (JObj [ ("symbol", JStr symbol);
              ("current_price", current_price);
              ("price_change_percent", price_change_percent);
              ("high_24h", high_24h);
              ("low_24h", low_24h);
              ("volume", volume);
              ("source", source);
              ("report_summary", report_summary) ]).

End Services.

(* ===================================================================== *)
(** ** app/services/openai_service.py: get_crypto_price_coingecko *)
(* ===================================================================== *)

(** The function is kept in the source for reference and called by nothing.
    Its only effect is one GET of a URL that no other function requests;
    it is modelled as a function of the HTTP client, [get url] being
    [await client.get(url)]. *)
Definition result_bind {A B : Type} (r : result A) (k : A -> result B)
  : result B :=
  match r with
  | Ok a => k a
  | Raise e => Raise e
  end.

Definition coingecko_price_url (symbol : string) : string :=
  "https://api.coingecko.com/api/v3/simple/price?ids=" ++ lower symbol
  ++ "&vs_currencies=usd".

Definition get_crypto_price_coingecko (get : string -> result response)
           (symbol : string) : result json :=
  result_bind (get (coingecko_price_url symbol)) (fun response =>
  if negb (status_code response =? 200) then
    Ok (JObj [ ("error", JStr "Unable to retrieve data from Coingecko") ])
  else
    result_bind (match parsed response with
                 | Parsed data => Ok data
                 | Malformed msg => Raise (JSONDecodeError msg)
                 end) (fun data =>
    result_bind (py_get data (lower symbol) (JObj [])) (fun of_symbol =>
    result_bind (py_get of_symbol "usd" (JStr "N/A")) (fun usd =>
    Ok (JObj [ ("symbol", JStr symbol);
               ("current_price", usd);
               ("source", JStr "Coingecko") ]))))).

(* ===================================================================== *)
(** ** Observations on traces, scripted providers, and the vocabulary of
       the statements *)
(* ===================================================================== *)

(** From here on [++] is the concatenation of traces; the concatenation of
    strings is marked [%string]. *)
Local Open Scope list_scope.

Definition is_get (e : event) : bool :=
  match e with EGet _ => true | _ => false end.

Definition is_search (e : event) : bool :=
  match e with EGet (CoingeckoSearch _) => true | _ => false end.

Definition is_coin (e : event) : bool :=
  match e with EGet (CoingeckoCoin _) => true | _ => false end.

Definition is_ethplorer (e : event) : bool :=
  match e with EGet (EthplorerSearch _) => true | _ => false end.

Definition is_moralis (e : event) : bool :=
  match e with EGet (MoralisPrice _ _) => true | _ => false end.

Definition is_chat (e : event) : bool :=
  match e with EChat _ _ => true | _ => false end.

Definition count (p : event -> bool) (tr : trace) : nat :=
  List.length (filter p tr).

(** Seconds spent in [asyncio.sleep]. *)
Fixpoint slept (tr : trace) : Z :=
  match tr with
  | [] => 0
  | ESleep s :: r => s + slept r
  | _ :: r => slept r
  end.

(** A provider that answers the n-th HTTP request with the n-th scripted
    answer, whatever the request, and offers no completion. *)
Definition scripted (answers : list (result response)) : providers :=
  mkProviders
    (fun tr _ =>
       nth (count is_get tr) answers (Raise (RequestError "nothing scripted")))
    (fun _ _ _ => Raise (RequestError "nothing scripted")).

(** A provider that answers by request only. *)
Definition stateless (f : request -> result response) : providers :=
  mkProviders
    (fun _ r => f r)
    (fun _ _ _ => Raise (RequestError "nothing scripted")).

(** A response whose body parses to [data]; the text of the body, which
    only the error dictionaries quote, is abbreviated. *)
Definition http_json (status : Z) (data : json) : result response :=
  Ok (mkResponse status "<json>" (Parsed data)).

(** A response whose body is the text [txt] and is not JSON. *)
Definition http_text (status : Z) (txt : string) : result response :=
  Ok (mkResponse status txt (Malformed "Expecting value: line 1 column 1 (char 0)")).

Definition too_many_requests : result response :=
  http_text 429 "Too Many Requests".

(** *** The Token ID Resolver: retries on 429 *)

(** [n] attempts answered 429, each followed by its 2-second pause. *)
Fixpoint attempts_429 (n : nat) (url : request) : trace :=
  match n with
  | O => []
  | S n => EGet url :: ESleep 2 :: attempts_429 n url
  end.

Definition rate_limited (a : result response) : bool :=
  match a with
  | Ok r => status_code r =? 429
  | Raise _ => false
  end.

Definition search_result (id : string) : json :=
  JObj [ ("coins", JArr [ JObj [ ("id", JStr id); ("symbol", JStr "x") ] ]) ].

(** *** What the two Coingecko resolvers add to the trace *)

(** One round of the pipeline against Coingecko: the token id of a query,
    then the contract of that token id (lines 145-146 and 154-155 of the
    source). *)
Definition coingecko_lookup (P : providers) (query chain : string) : M json :=
  (token_id <- get_token_id P query;;
   _get_contract_from_coingecko P token_id query chain)%py.

(** *** The order of the fallback stages *)

(** The symbols the pipeline answers without any lookup. *)
Definition short_circuited (symbol : string) : bool :=
  py_in (upper symbol) ["ETH"; "ETHEREUM"]
  || py_in (upper symbol) ["SOL"; "SOLANA"; "XLM"; "STELLAR"].

Definition found_id (token_id : json) : result response :=
  http_json 200 (JObj [ ("coins", JArr [ JObj [ ("id", token_id) ] ]) ]).

Definition no_contract : result response :=
  http_json 200 (JObj [ ("platforms", JObj []) ]).

Definition contract_on (chain : string) (address : json) : result response :=
  http_json 200
    (JObj [ ("platforms",
             JObj [ (mapping_get PLATFORM_MAPPING chain "ethereum", address) ]) ]).

(** The mock of the fallback-ordering scenario: the primary query and the
    first wrapped variant find a token without a contract on the chain,
    the second wrapped variant finds a token with one. *)
Definition second_variant_succeeds (id0 id1 id2 : json) (chain : string)
           (address : json) : providers :=
  scripted [ found_id id0; no_contract;
             found_id id1; no_contract;
             found_id id2; contract_on chain address ].

(** *** Which effects a computation may add to the trace *)

(** [adds Q m]: whatever the trace and the outcome, [m] extends the trace
    by events that satisfy [Q]. *)
Definition adds {A : Type} (Q : event -> Prop) (m : M A) : Prop :=
  forall tr : trace,
  exists d : trace, snd (m tr) = tr ++ d /\ Forall Q d.

(** The events of a contract resolution: requests to Coingecko and
    Ethplorer, and pauses. *)
Definition resolution_event (e : event) : Prop :=
  match e with
  | EGet (MoralisPrice _ _) | EChat _ _ => False
  | _ => True
  end.

(** *** The aggregator behind an unresolved contract *)

(** [msg] contains [phrase]. *)
Definition mentions (phrase msg : string) : Prop :=
  exists pre post : string, msg = (pre ++ phrase ++ post)%string.

(** *** Empty addresses *)

(** What remains of [get_token_contract] after a failed primary lookup:
    the wrapped variants, then Ethplorer. *)
Definition wrapped_then_ethplorer (P : providers) (symbol chain : string)
  : M json :=
  (found <- wrapped_loop P [ ("wrapped " ++ symbol)%string;
                             ("w" ++ lower symbol)%string;
                             ("wrapped-" ++ lower symbol)%string ] chain;;
   match found with
   | Some contract_address => ret contract_address
   | None => ethplorer_fallback P symbol
   end)%py.

Definition empty_primary_then_wrapped : providers :=
  scripted [ found_id (JStr "bitcoin"); contract_on "eth" (JStr "");
             found_id (JStr "wrapped-bitcoin");
             contract_on "eth" (JStr "0xWBTC") ].

(** *** The price record *)

(** The fields of the price record that are read from the payload, with
    the key each is read from. *)
Definition price_fields : list (string * string) :=
  [ ("current_price", "usdPrice");
    ("price_change_24h", "priceChange");
    ("price_change_percent", "priceChangePercent");
    ("high_24h", "highPrice");
    ("low_24h", "lowPrice");
    ("volume", "volume") ].

(** [payload.get(k, "N/A")] on a dictionary. *)
Definition field_or_na (m : list (string * json)) (k : string) : json :=
  match assoc k m with
  | Some v => v
  | None => JStr "N/A"
  end.

Definition price_record (symbol : string) (m : list (string * json)) : json :=
  JObj [ ("symbol", JStr symbol);
         ("current_price", field_or_na m "usdPrice");
         ("price_change_24h", field_or_na m "priceChange");
         ("price_change_percent", field_or_na m "priceChangePercent");
         ("high_24h", field_or_na m "highPrice");
         ("low_24h", field_or_na m "lowPrice");
         ("volume", field_or_na m "volume");
         ("source", JStr "Moralis");
         ("raw_response", JObj m) ].

(** A 2xx status. *)
Definition successful (status : Z) : Prop := 200 <= status < 300.

(** C7 as the specification words it: every 2xx response with a
    well-formed JSON body gives a price record. *)
Definition price_record_for_every_2xx : Prop :=
  forall (P : providers) (symbol chain : string) (tr t : trace)
         (address : json) (r : response) (m : list (string * json)),
    get_token_contract P symbol chain tr = (Ok address, t) ->
    truthy address = true ->
    http_get P t (MoralisPrice address chain) = Ok r ->
    successful (status_code r) ->
    parsed r = Parsed (JObj m) ->
    fst (get_crypto_price P symbol chain tr) = Ok (price_record symbol m).

Definition created_201 : providers :=
  scripted [ http_json 201 (JObj [ ("usdPrice", JInt 65000) ]) ].

(** *** The metadata record *)

(** [payload.get(k)] on a dictionary. *)
Definition field_or_none (m : list (string * json)) (k : string) : json :=
  match assoc k m with
  | Some v => v
  | None => JNull
  end.

Definition metadata_record (m : list (string * json)) : json :=
  JObj [ ("tokenName", field_or_none m "tokenName");
         ("tokenSymbol", field_or_none m "tokenSymbol");
         ("tokenLogo", field_or_none m "tokenLogo");
         ("tokenDecimals", field_or_none m "tokenDecimals");
         ("nativePrice", field_or_none m "nativePrice");
         ("usdPrice", field_or_none m "usdPrice");
         ("exchangeName", field_or_none m "exchangeName");
         ("exchangeAddress", field_or_none m "exchangeAddress");
         ("tokenAddress", field_or_none m "tokenAddress") ].

Definition address_not_found : json :=
  JObj [ ("error", JStr "Contract address not found") ].

(** C10 as the specification words it: every 2xx response with a parsed
    body whose tokenAddress is absent or falsy gives the error
    "Contract address not found". *)
Definition address_error_for_every_2xx : Prop :=
  forall (P : providers) (symbol chain : string) (tr t : trace)
         (address : json) (r : response) (m : list (string * json)),
    get_token_contract P symbol chain tr = (Ok address, t) ->
    truthy address = true ->
    http_get P t (MoralisPrice address chain) = Ok r ->
    successful (status_code r) ->
    parsed r = Parsed (JObj m) ->
    truthy (field_or_none m "tokenAddress") = false ->
    fst (get_crypto_metadata P symbol chain tr) = Ok address_not_found.

Definition created_201_no_address : providers :=
  scripted [ http_json 201 (JObj [ ("tokenName", JStr "Wrapped Ether") ]) ].

Definition ok_200_empty_address : providers :=
  scripted [ http_json 200 (JObj [ ("tokenName", JStr "Wrapped Ether");
                                   ("usdPrice", JInt 3000);
                                   ("tokenAddress", JStr "") ]) ].

(** *** Faults that are caught, and faults that escape *)

Definition html_instead_of_json : providers :=
  scripted [ http_text 200 "<html>Service unavailable</html>" ].

Definition connection_refused : providers :=
  stateless (fun _ => Raise (RequestError "All connection attempts failed")).

(** *** Costs of a run, and providers without memory *)

Definition is_sleep (e : event) : bool :=
  match e with ESleep _ => true | _ => false end.

Definition hit (p : event -> bool) (e : event) : nat :=
  if p e then 1%nat else 0%nat.

(** [within p n m]: whatever the trace and the outcome, [m] extends the
    trace by events of which at most [n] satisfy [p]. *)
Definition within {A : Type} (p : event -> bool) (n : nat) (m : M A) : Prop :=
  forall tr : trace,
  exists d : trace, snd (m tr) = tr ++ d /\ (count p d <= n)%nat.

(** The events of the Coingecko rounds. *)
Definition coingecko_event (e : event) : Prop :=
  match e with
  | EGet (CoingeckoSearch _) | EGet (CoingeckoCoin _) | ESleep _ => True
  | _ => False
  end.

(** Every pause lasts 2 seconds. *)
Definition pause_of_2 (e : event) : Prop :=
  match e with
  | ESleep s => s = 2
  | _ => True
  end.

(** The answers of the HTTP providers depend on the request only. *)
Definition history_independent (P : providers) : Prop :=
  forall (tr tr' : trace) (req : request),
    http_get P tr req = http_get P tr' req.

(** [uniform m]: [m] has the same outcome and adds the same events
    whatever the trace it starts from. *)
Definition uniform {A : Type} (m : M A) : Prop :=
  exists (r : result A) (d : trace), forall tr : trace, m tr = (r, tr ++ d).

(** No provider ever answers 429. *)
Definition never_rate_limited (P : providers) : Prop :=
  forall (tr : trace) (req : request),
    rate_limited (http_get P tr req) = false.

(** Every request is answered, and never with status 200. *)
Definition answers_never_200 (P : providers) : Prop :=
  forall (tr : trace) (req : request),
  exists r : response, http_get P tr req = Ok r /\ status_code r <> 200.

(** The events a resolution of [symbol] may add: searches for four
    lower-case queries, coin lookups, one kind of Ethplorer request, and
    pauses of 2 seconds. *)
Definition derived_request (symbol : string) (e : event) : Prop :=
  match e with
  | EGet (CoingeckoSearch q) =>
      In q [ lower symbol;
             ("wrapped " ++ lower symbol)%string;
             ("w" ++ lower symbol)%string;
             ("wrapped-" ++ lower symbol)%string ]
  | EGet (CoingeckoCoin _) => True
  | EGet (EthplorerSearch s) => s = symbol
  | EGet (MoralisPrice _ _) => False
  | ESleep s => s = 2
  | EChat _ _ => False
  end.

Definition not_found_everywhere : providers :=
  stateless (fun _ => http_text 404 "Not Found").

(** A mock that knows one token, "bitcoin", with a contract on Ethereum
    only, and one Ethplorer result for "DOGE". *)
Definition small_world : providers :=
  stateless (fun req =>
    match req with
    | CoingeckoSearch q =>
        if String.eqb q "btc"
        then http_json 200 (search_result "bitcoin")
        else http_json 200 (JObj [ ("coins", JArr []) ])
    | CoingeckoCoin _ =>
        http_json 200 (JObj [ ("platforms",
                               JObj [ ("ethereum", JStr "0xBTC123") ]) ])
    | EthplorerSearch sym =>
        if String.eqb sym "DOGE"
        then http_json 200
               (JObj [ ("tokens",
                        JArr [ JObj [ ("address", JStr "0xD06E") ];
                               JObj [ ("address", JStr "0xOTHER") ] ]) ])
        else http_text 404 "Not Found"
    | MoralisPrice _ _ =>
        http_json 200 (JObj [ ("usdPrice", JInt 65000);
                              ("priceChangePercent", JInt 2) ])
    end).

(** *** The aggregator, the report and the unused price *)

Definition coin_without_id : providers :=
  scripted [ http_json 200
               (JObj [ ("coins", JArr [ JObj [ ("name", JStr "Bitcoin") ];
                                        JObj [ ("id", JStr "bitcoin") ] ]) ]) ].

Definition moralis_rate_limited : providers :=
  scripted [ too_many_requests ].

Definition moralis_html : providers :=
  scripted [ http_text 200 "<html>Bad gateway</html>" ].

Definition moralis_list : providers :=
  scripted [ http_json 200 (JArr []) ].

Definition report_model : string := "gpt-4-1106-preview".

(** The prompt built from a price record. *)
Definition report_prompt (symbol : string) (m : list (string * json))
  : prompt :=
  mkPrompt symbol (field_or_na m "usdPrice")
           (field_or_na m "priceChangePercent") (field_or_na m "volume").

(** The report assembled from a price record and a summary. *)
Definition report_of (symbol : string) (m : list (string * json))
           (summary : json) : json :=
  JObj [ ("symbol", JStr symbol);
         ("current_price", field_or_na m "usdPrice");
         ("price_change_percent", field_or_na m "priceChangePercent");
         ("high_24h", field_or_na m "highPrice");
         ("low_24h", field_or_na m "lowPrice");
         ("volume", field_or_na m "volume");
         ("source", JStr "Moralis");
         ("report_summary", summary) ].

(** A world where Moralis prices the token and the model answers. *)
Definition priced_and_summarised : providers :=
  mkProviders
    (fun _ _ => http_json 200 (JObj [ ("usdPrice", JInt 3000);
                                      ("volume", JInt 12) ]))
    (fun _ _ _ => Ok [ JStr "Looks stable."; JStr "Second opinion." ]).

Definition simple_price_mock (url : string) : result response :=
  if String.eqb url
       "https://api.coingecko.com/api/v3/simple/price?ids=bitcoin&vs_currencies=usd"
  then http_json 200 (JObj [ ("bitcoin", JObj [ ("usd", JInt 65000) ]) ])
  else http_text 404 "Not Found".

(* ===================================================================== *)
(** ** The short-circuits of the pipeline *)
(* ===================================================================== *)

Lemma py_in_In (x : string) (l : list string) :
  py_in x l = true <-> In x l.
Proof.
  unfold py_in. rewrite existsb_exists. split.
  - intros [y [Hy He]]. apply String.eqb_eq in He. now subst.
  - intros H. exists x. split; [assumption | apply String.eqb_refl].
Qed.

(** C3. For every symbol whose upper-case form is "ETH" or "ETHEREUM" and
    for every chain, [get_token_contract] returns the canonical wrapped
    native-asset address and leaves the trace as it found it: no request
    is sent, nothing is awaited. *)
Theorem native_asset_short_circuit :
  forall (P : providers) (symbol chain : string) (tr : trace),
    upper symbol = "ETH" \/ upper symbol = "ETHEREUM" ->
    get_token_contract P symbol chain tr
    = (Ok (JStr "0xC02aaa39b223FE8D0A0E5C4F27eAD9083C756Cc2"), tr).
Proof.
  intros P symbol chain tr H. unfold get_token_contract.
  assert (E : py_in (upper symbol) ["ETH"; "ETHEREUM"] = true).
  { apply py_in_In. destruct H as [H | H]; rewrite H; simpl; auto. }
  rewrite E. reflexivity.
Qed.

Lemma native_asset_short_circuit_witness :
  (upper "eTh" = "ETH" \/ upper "eTh" = "ETHEREUM")
  /\ get_token_contract (scripted []) "eTh" "polygon" []
     = (Ok (JStr "0xC02aaa39b223FE8D0A0E5C4F27eAD9083C756Cc2"), []).
Proof.
  split.
  - left. reflexivity.
  - apply (native_asset_short_circuit (scripted []) "eTh" "polygon" []).
    left. reflexivity.
Defined.

(** C4. For every symbol whose upper-case form is one of "SOL", "SOLANA",
    "XLM", "STELLAR" and for every chain, [get_token_contract] returns
    [None] and leaves the trace as it found it. *)
Theorem unsupported_asset_short_circuit :
  forall (P : providers) (symbol chain : string) (tr : trace),
    In (upper symbol) ["SOL"; "SOLANA"; "XLM"; "STELLAR"] ->
    get_token_contract P symbol chain tr = (Ok JNull, tr).
Proof.
  intros P symbol chain tr H. unfold get_token_contract.
  assert (E : py_in (upper symbol) ["SOL"; "SOLANA"; "XLM"; "STELLAR"] = true)
    by (apply py_in_In; exact H).
  destruct (py_in (upper symbol) ["ETH"; "ETHEREUM"]) eqn:N.
  - exfalso. apply py_in_In in N.
    simpl in H, N.
    destruct N as [N | [N | []]]; rewrite <- N in H;
      repeat (destruct H as [H | H]; [discriminate H |]); exact H.
  - rewrite E. reflexivity.
Qed.

Lemma unsupported_asset_short_circuit_witness :
  In (upper "Stellar") ["SOL"; "SOLANA"; "XLM"; "STELLAR"]
  /\ get_token_contract (scripted []) "Stellar" "bsc" [] = (Ok JNull, []).
Proof.
  split.
  - simpl. tauto.
  - apply (unsupported_asset_short_circuit (scripted []) "Stellar" "bsc" []).
    simpl. tauto.
Defined.

(* ===================================================================== *)
(** ** The Token ID Resolver: retries on 429 *)
(* ===================================================================== *)

Lemma retries_range : py_range 1 (3 + 1) = [1; 2; 3].
Proof. reflexivity. Qed.

Section TokenId.

Variable P : providers.
Variable url : request.

Lemma loop_rate_limited (a : Z) (l : list Z) (tr : trace) :
  rate_limited (http_get P tr url) = true ->
  get_token_id_loop P url (a :: l) tr
  = get_token_id_loop P url l (tr ++ [EGet url; ESleep 2])%list.
Proof.
  intros H. simpl. unfold bind at 1. unfold client_get.
  destruct (http_get P tr url) as [r | e]; simpl in H; [| discriminate].
  rewrite H. unfold bind, sleep. rewrite <- app_assoc. reflexivity.
Qed.

Lemma loop_found (a : Z) (l : list Z) (tr : trace)
      (r : response) (data first : json) (rest : list json) (token_id : json) :
  http_get P tr url = Ok r ->
  status_code r = 200 ->
  parsed r = Parsed data ->
  py_get data "coins" (JArr []) = Ok (JArr (first :: rest)) ->
  py_item first "id" = Ok token_id ->
  get_token_id_loop P url (a :: l) tr = (Ok token_id, tr ++ [EGet url])%list.
Proof.
  intros Hr Hs Hp Hc Hi. simpl. unfold bind at 1. unfold client_get.
  rewrite Hr, Hs. simpl. unfold response_json. rewrite Hp.
  unfold bind, ret, lift. rewrite Hc. simpl. rewrite Hi. reflexivity.
Qed.

(** Once an attempt is answered with something other than 429, the loop
    ends without any further effect. *)
Lemma loop_last_attempt (a : Z) (l : list Z) (tr : trace) :
  rate_limited (http_get P tr url) = false ->
  snd (get_token_id_loop P url (a :: l) tr) = (tr ++ [EGet url])%list.
Proof.
  intros H. simpl. unfold bind at 1. unfold client_get.
  destruct (http_get P tr url) as [r | e]; simpl in H; [| reflexivity].
  rewrite H. destruct (negb (status_code r =? 200)); [reflexivity |].
  unfold response_json, bind, ret, raise, lift.
  destruct (parsed r) as [msg | data]; [reflexivity |].
  destruct (py_get data "coins" (JArr [])) as [coins | e]; [| reflexivity].
  destruct (negb (truthy coins)); [reflexivity |].
  destruct (py_first coins) as [first | e]; [| reflexivity].
  destruct (py_item first "id"); reflexivity.
Qed.

Lemma loop_shape (l : list Z) :
  forall tr : trace,
  exists k : nat,
    ((k < List.length l)%nat
     /\ snd (get_token_id_loop P url l tr)
        = (tr ++ attempts_429 k url ++ [EGet url])%list)
    \/ (k = List.length l
        /\ get_token_id_loop P url l tr
           = (Ok JNull, (tr ++ attempts_429 k url)%list)).
Proof.
  induction l as [| a l IH]; intros tr.
  - exists 0%nat. right. split; [reflexivity |].
    simpl. unfold ret. now rewrite app_nil_r.
  - destruct (rate_limited (http_get P tr url)) eqn:H.
    + rewrite (loop_rate_limited a l tr H).
      destruct (IH (tr ++ [EGet url; ESleep 2])%list) as [k [[Hk E] | [Hk E]]];
        exists (S k); [left | right]; (split; [simpl; lia |]);
        rewrite E; rewrite <- app_assoc; reflexivity.
    + exists 0%nat. left. split; [simpl; lia |].
      now apply loop_last_attempt.
Qed.

End TokenId.

Lemma slept_app (t u : trace) : slept (t ++ u) = slept t + slept u.
Proof.
  induction t as [| e t IH]; simpl; [reflexivity |].
  destruct e; rewrite ?IH; lia.
Qed.

(** C2. [get_token_id] searches for the lower-cased symbol.  Every run
    consists of some attempts answered 429, each followed by a pause of 2
    seconds, and then either one last attempt (fewer than three were
    answered 429) or nothing more: after three 429s the result is [None],
    not an exception.  When the first two attempts are answered 429 and
    the third 200 with a non-empty list of coins, the result is the id of
    the first coin, found by the third request after 2 times 2 seconds of
    waiting. *)
Theorem token_id_rate_limit_retry :
  forall (P : providers) (symbol : string) (tr : trace),
    let url := CoingeckoSearch (lower symbol) in
    let t1 := (tr ++ [EGet url; ESleep 2])%list in
    let t2 := (t1 ++ [EGet url; ESleep 2])%list in
    (exists k : nat,
        ((k < 3)%nat
         /\ snd (get_token_id P symbol tr)
            = (tr ++ attempts_429 k url ++ [EGet url])%list)
        \/ (k = 3%nat
            /\ get_token_id P symbol tr
               = (Ok JNull, (tr ++ attempts_429 3 url)%list)))
    /\ (rate_limited (http_get P tr url) = true ->
        rate_limited (http_get P t1 url) = true ->
        rate_limited (http_get P t2 url) = true ->
        get_token_id P symbol tr
        = (Ok JNull, (tr ++ attempts_429 3 url)%list))
    /\ (forall (r : response) (data first : json) (rest : list json)
               (token_id : json),
          rate_limited (http_get P tr url) = true ->
          rate_limited (http_get P t1 url) = true ->
          http_get P t2 url = Ok r ->
          status_code r = 200 ->
          parsed r = Parsed data ->
          py_get data "coins" (JArr []) = Ok (JArr (first :: rest)) ->
          py_item first "id" = Ok token_id ->
          get_token_id P symbol tr = (Ok token_id, (t2 ++ [EGet url])%list)
          /\ count is_get (t2 ++ [EGet url])%list = (count is_get tr + 3)%nat
          /\ slept (t2 ++ [EGet url])%list = slept tr + 2 * 2).
Proof.
  intros P symbol tr url t1 t2. unfold get_token_id. fold url.
  rewrite retries_range. repeat split.
  - destruct (loop_shape P url [1; 2; 3] tr) as [k [[Hk E] | [Hk E]]];
      exists k; [left | right]; simpl in Hk; subst; auto.
  - intros H0 H1 H2.
    rewrite (loop_rate_limited P url _ _ tr H0).
    rewrite (loop_rate_limited P url _ _ _ H1).
    rewrite (loop_rate_limited P url _ _ _ H2).
    simpl. unfold ret. subst t2 t1. now rewrite <- !app_assoc.
  - rewrite (loop_rate_limited P url _ _ tr H).
    rewrite (loop_rate_limited P url _ _ _ H0).
    eapply loop_found; eassumption.
  - subst t2 t1. unfold count. rewrite !filter_app, !length_app. simpl. lia.
  - subst t2 t1. rewrite !slept_app. simpl. lia.
Qed.

Lemma token_id_rate_limit_retry_witness :
  let url := CoingeckoSearch "btc" in
  (get_token_id
     (scripted [ too_many_requests; too_many_requests;
                 http_json 200 (search_result "bitcoin") ]) "BTC" []
   = (Ok (JStr "bitcoin"), [EGet url; ESleep 2; EGet url; ESleep 2; EGet url])
   /\ slept [EGet url; ESleep 2; EGet url; ESleep 2; EGet url] = 4)
  /\ get_token_id
       (scripted [ too_many_requests; too_many_requests; too_many_requests ])
       "BTC" []
     = (Ok JNull, [EGet url; ESleep 2; EGet url; ESleep 2; EGet url; ESleep 2]).
Proof.
  intros url. split.
  - destruct (token_id_rate_limit_retry
                (scripted [ too_many_requests; too_many_requests;
                            http_json 200 (search_result "bitcoin") ])
                "BTC" []) as [_ [_ H]].
    destruct (H (mkResponse 200 "<json>" (Parsed (search_result "bitcoin")))
                (search_result "bitcoin")
                (JObj [ ("id", JStr "bitcoin"); ("symbol", JStr "x") ])
                [] (JStr "bitcoin"))
      as [E [_ S]]; try reflexivity.
    split; [exact E | exact S].
  - destruct (token_id_rate_limit_retry
                (scripted [ too_many_requests; too_many_requests;
                            too_many_requests ])
                "BTC" []) as [_ [H _]].
    apply H; reflexivity.
Defined.

(* ===================================================================== *)
(** ** What the two Coingecko resolvers add to the trace *)
(* ===================================================================== *)

Lemma count_app (p : event -> bool) (t u : trace) :
  count p (t ++ u) = (count p t + count p u)%nat.
Proof. unfold count. now rewrite filter_app, length_app. Qed.

Lemma count_none (p : event -> bool) (d : trace) :
  Forall (fun e => p e = false) d -> count p d = 0%nat.
Proof.
  unfold count. induction 1 as [| e d He _ IH]; simpl; [reflexivity |].
  now rewrite He.
Qed.

Lemma attempts_429_events (k : nat) (url : request) :
  Forall (fun e => e = EGet url \/ e = ESleep 2) (attempts_429 k url).
Proof. induction k; simpl; auto. Qed.

Lemma get_token_id_delta (P : providers) (query : string) (tr : trace) :
  exists d : trace,
    snd (get_token_id P query tr) = tr ++ d
    /\ Forall (fun e => e = EGet (CoingeckoSearch (lower query))
                        \/ e = ESleep 2) d.
Proof.
  unfold get_token_id.
  destruct (loop_shape P (CoingeckoSearch (lower query))
                       (py_range 1 (3 + 1)) tr) as [k [[_ E] | [_ E]]];
    rewrite E; eexists; (split; [reflexivity |]).
  - apply Forall_app. split; [apply attempts_429_events | auto].
  - apply attempts_429_events.
Qed.

Lemma contract_delta (P : providers) (token_id : json) (query chain : string)
      (tr : trace) :
  snd (_get_contract_from_coingecko P token_id query chain tr)
  = if truthy token_id then tr ++ [EGet (CoingeckoCoin token_id)] else tr.
Proof.
  unfold _get_contract_from_coingecko.
  destruct (truthy token_id); simpl; [| reflexivity].
  unfold bind at 1. unfold client_get.
  destruct (http_get P tr (CoingeckoCoin token_id)) as [r | e]; [| reflexivity].
  destruct (negb (status_code r =? 200)); [reflexivity |].
  unfold response_json, bind, ret, raise, lift.
  destruct (parsed r) as [msg | data]; [reflexivity |].
  destruct (py_get data "platforms" (JObj [])) as [pl | e]; [| reflexivity].
  destruct (py_get pl _ JNull); reflexivity.
Qed.

Lemma coingecko_lookup_delta (P : providers) (query chain : string)
      (tr : trace) :
  exists d : trace,
    snd (coingecko_lookup P query chain tr) = tr ++ d
    /\ Forall (fun e => match e with
                        | EGet (CoingeckoSearch _) | EGet (CoingeckoCoin _)
                        | ESleep _ => True
                        | _ => False
                        end) d.
Proof.
  unfold coingecko_lookup, bind.
  destruct (get_token_id_delta P query tr) as [d [E F]].
  destruct (get_token_id P query tr) as [[token_id | e] t]; simpl in E; subst t.
  - rewrite contract_delta.
    assert (F' : Forall (fun e => match e with
                        | EGet (CoingeckoSearch _) | EGet (CoingeckoCoin _)
                        | ESleep _ => True
                        | _ => False
                        end) d).
    { eapply Forall_impl; [| exact F]. intros e [-> | ->]; exact I. }
    destruct (truthy token_id).
    + exists (d ++ [EGet (CoingeckoCoin token_id)]).
      rewrite app_assoc. split; [reflexivity |].
      apply Forall_app. split; [exact F' | repeat constructor].
    + exists d. split; [reflexivity | exact F'].
  - exists d. split; [reflexivity |].
    eapply Forall_impl; [| exact F]. intros ev [-> | ->]; exact I.
Qed.

Lemma coingecko_lookup_no_ethplorer (P : providers) (query chain : string)
      (tr t : trace) (r : result json) :
  coingecko_lookup P query chain tr = (r, t) ->
  count is_ethplorer t = count is_ethplorer tr.
Proof.
  intros H. destruct (coingecko_lookup_delta P query chain tr) as [d [E F]].
  rewrite H in E. simpl in E. subst t. rewrite count_app.
  rewrite (count_none is_ethplorer d); [lia |].
  eapply Forall_impl; [| exact F].
  intros [[] | |]; simpl; intros; tauto || reflexivity.
Qed.

(* ===================================================================== *)
(** ** The order of the fallback stages *)
(* ===================================================================== *)

Lemma lookup_then {A : Type} (P : providers) (query chain : string)
      (k : json -> M A) (tr t : trace) (c : json) :
  coingecko_lookup P query chain tr = (Ok c, t) ->
  (token_id <- get_token_id P query;;
   contract_address <- _get_contract_from_coingecko P token_id query chain;;
   k contract_address)%py tr
  = k c t.
Proof.
  unfold coingecko_lookup, bind. intros H.
  destruct (get_token_id P query tr) as [[token_id | e] t']; [| discriminate].
  rewrite H. reflexivity.
Qed.

Lemma get_token_contract_primary_failed (P : providers) (symbol chain : string)
      (tr t0 : trace) (c0 : json) :
  short_circuited symbol = false ->
  coingecko_lookup P symbol chain tr = (Ok c0, t0) ->
  truthy c0 = false ->
  get_token_contract P symbol chain tr
  = (found <- wrapped_loop P [ ("wrapped " ++ symbol)%string;
                               ("w" ++ lower symbol)%string;
                               ("wrapped-" ++ lower symbol)%string ] chain;;
     match found with
     | Some contract_address => ret contract_address
     | None => ethplorer_fallback P symbol
     end)%py t0.
Proof.
  intros S H F. unfold short_circuited in S.
  apply orb_false_iff in S. destruct S as [S1 S2].
  unfold get_token_contract. rewrite S1, S2.
  rewrite (lookup_then P symbol chain _ tr t0 c0 H). now rewrite F.
Qed.

Lemma wrapped_loop_step (P : providers) (query : string) (rest : list string)
      (chain : string) (tr t : trace) (c : json) :
  coingecko_lookup P query chain tr = (Ok c, t) ->
  wrapped_loop P (query :: rest) chain tr
  = if truthy c then (Ok (Some c), t) else wrapped_loop P rest chain t.
Proof.
  intros H. simpl.
  rewrite (lookup_then P query chain _ tr t c H).
  destruct (truthy c); reflexivity.
Qed.

Lemma get_token_id_found (P : providers) (query : string) (tr : trace)
      (r : response) (data first : json) (rest : list json) (token_id : json) :
  http_get P tr (CoingeckoSearch (lower query)) = Ok r ->
  status_code r = 200 ->
  parsed r = Parsed data ->
  py_get data "coins" (JArr []) = Ok (JArr (first :: rest)) ->
  py_item first "id" = Ok token_id ->
  get_token_id P query tr
  = (Ok token_id, tr ++ [EGet (CoingeckoSearch (lower query))]).
Proof.
  intros. unfold get_token_id. rewrite retries_range.
  eapply loop_found; eassumption.
Qed.

Lemma contract_found (P : providers) (token_id : json) (query chain : string)
      (tr : trace) (r : response) (data platforms c : json) :
  truthy token_id = true ->
  http_get P tr (CoingeckoCoin token_id) = Ok r ->
  status_code r = 200 ->
  parsed r = Parsed data ->
  py_get data "platforms" (JObj []) = Ok platforms ->
  py_get platforms (mapping_get PLATFORM_MAPPING chain "ethereum") JNull
  = Ok c ->
  _get_contract_from_coingecko P token_id query chain tr
  = (Ok c, tr ++ [EGet (CoingeckoCoin token_id)]).
Proof.
  intros T Hr Hs Hp Hpl Hc. unfold _get_contract_from_coingecko.
  rewrite T. cbn [negb]. unfold bind at 1. unfold client_get.
  rewrite Hr, Hs. change (negb (200 =? 200)) with false. cbv iota.
  unfold response_json. rewrite Hp.
  unfold bind, ret, lift. cbv zeta. now rewrite Hpl, Hc.
Qed.

Lemma coingecko_lookup_run (P : providers) (query chain : string)
      (tr t1 t2 : trace) (token_id c : json) :
  get_token_id P query tr = (Ok token_id, t1) ->
  _get_contract_from_coingecko P token_id query chain t1 = (Ok c, t2) ->
  coingecko_lookup P query chain tr = (Ok c, t2).
Proof.
  intros H1 H2. unfold coingecko_lookup, bind. now rewrite H1.
Qed.

Section SecondVariant.

Variables (symbol chain : string) (id0 id1 id2 address : json).
Hypothesis T0 : truthy id0 = true.
Hypothesis T1 : truthy id1 = true.
Hypothesis T2 : truthy id2 = true.

Let P := second_variant_succeeds id0 id1 id2 chain address.
Let v1 := ("wrapped " ++ symbol)%string.
Let v2 := ("w" ++ lower symbol)%string.
Let round0 := [ EGet (CoingeckoSearch (lower symbol)); EGet (CoingeckoCoin id0) ].
Let round1 := [ EGet (CoingeckoSearch (lower v1)); EGet (CoingeckoCoin id1) ].
Let round2 := [ EGet (CoingeckoSearch (lower v2)); EGet (CoingeckoCoin id2) ].

Lemma scenario_primary :
  coingecko_lookup P symbol chain [] = (Ok JNull, round0).
Proof.
  eapply coingecko_lookup_run.
  - eapply get_token_id_found; reflexivity.
  - eapply (contract_found P id0 symbol chain); try reflexivity. exact T0.
Qed.

Lemma scenario_first_variant :
  coingecko_lookup P v1 chain round0 = (Ok JNull, round0 ++ round1).
Proof.
  eapply coingecko_lookup_run.
  - eapply get_token_id_found; reflexivity.
  - eapply (contract_found P id1 v1 chain); try reflexivity. exact T1.
Qed.

Lemma scenario_second_variant :
  coingecko_lookup P v2 chain (round0 ++ round1)
  = (Ok address, (round0 ++ round1) ++ round2).
Proof.
  eapply coingecko_lookup_run.
  - eapply get_token_id_found; reflexivity.
  - eapply (contract_found P id2 v2 chain); try reflexivity; [exact T2 |].
    cbn -[mapping_get]. now rewrite String.eqb_refl.
Qed.

End SecondVariant.

(** C1. For a symbol outside the two short-circuit sets whose primary
    lookup gives no contract address, [get_token_contract] looks up
    "wrapped {symbol}", "w{symbol.lower()}" and "wrapped-{symbol.lower()}"
    in that order, returns the first address that is not absent, and turns
    to Ethplorer only after the third has failed.  When the primary lookup
    and the first variant fail and the second variant succeeds, the run is
    exactly these three rounds, Ethplorer is not consulted, and against the
    scripted mock of that scenario the requests sent before the successful
    round are exactly two token-id searches and two contract lookups. *)
Theorem wrapped_variant_fallback :
  (forall (P : providers) (symbol chain : string) (tr t0 : trace) (c0 : json),
      short_circuited symbol = false ->
      coingecko_lookup P symbol chain tr = (Ok c0, t0) ->
      truthy c0 = false ->
      forall (c1 : json) (t1 : trace),
        coingecko_lookup P ("wrapped " ++ symbol)%string chain t0 = (Ok c1, t1) ->
        (truthy c1 = true ->
         get_token_contract P symbol chain tr = (Ok c1, t1))
        /\ (truthy c1 = false ->
            forall (c2 : json) (t2 : trace),
              coingecko_lookup P ("w" ++ lower symbol)%string chain t1
              = (Ok c2, t2) ->
              (truthy c2 = true ->
               get_token_contract P symbol chain tr = (Ok c2, t2)
               /\ count is_ethplorer t2 = count is_ethplorer tr)
              /\ (truthy c2 = false ->
                  forall (c3 : json) (t3 : trace),
                    coingecko_lookup P ("wrapped-" ++ lower symbol)%string
                                     chain t2
                    = (Ok c3, t3) ->
                    (truthy c3 = true ->
                     get_token_contract P symbol chain tr = (Ok c3, t3))
                    /\ (truthy c3 = false ->
                        get_token_contract P symbol chain tr
                        = ethplorer_fallback P symbol t3))))
  /\ (forall (symbol chain : string) (id0 id1 id2 address : json),
         short_circuited symbol = false ->
         truthy id0 = true -> truthy id1 = true -> truthy id2 = true ->
         truthy address = true ->
         let P := second_variant_succeeds id0 id1 id2 chain address in
         let before :=
           [ EGet (CoingeckoSearch (lower symbol));
             EGet (CoingeckoCoin id0);
             EGet (CoingeckoSearch (lower ("wrapped " ++ symbol)));
             EGet (CoingeckoCoin id1) ] in
         let success :=
           [ EGet (CoingeckoSearch (lower ("w" ++ lower symbol)));
             EGet (CoingeckoCoin id2) ] in
         get_token_contract P symbol chain [] = (Ok address, before ++ success)
         /\ count is_search before = 2%nat
         /\ count is_coin before = 2%nat
         /\ count is_ethplorer (before ++ success) = 0%nat).
Proof.
  split.
  - intros P symbol chain tr t0 c0 S H0 F0 c1 t1 H1.
    rewrite (get_token_contract_primary_failed P symbol chain tr t0 c0 S H0 F0).
    unfold bind. rewrite (wrapped_loop_step P _ _ chain t0 t1 c1 H1).
    split; intros F1; rewrite F1; [reflexivity |].
    intros c2 t2 H2. rewrite (wrapped_loop_step P _ _ chain t1 t2 c2 H2).
    split; intros F2; rewrite F2.
    + split; [reflexivity |].
      rewrite (coingecko_lookup_no_ethplorer _ _ _ _ _ _ H2).
      rewrite (coingecko_lookup_no_ethplorer _ _ _ _ _ _ H1).
      apply (coingecko_lookup_no_ethplorer _ _ _ _ _ _ H0).
    + intros c3 t3 H3. rewrite (wrapped_loop_step P _ _ chain t2 t3 c3 H3).
      split; intros F3; rewrite F3; reflexivity.
  - intros symbol chain id0 id1 id2 address S T0 T1 T2 TA P before success.
    split; [| repeat split].
    rewrite (get_token_contract_primary_failed P symbol chain [] _ _ S
               (scenario_primary symbol chain id0 id1 id2 address T0)
               eq_refl).
    unfold bind at 1.
    rewrite (wrapped_loop_step P _ _ chain _ _ _
               (scenario_first_variant symbol chain id0 id1 id2 address T1)).
    cbn [truthy].
    rewrite (wrapped_loop_step P _ _ chain _ _ _
               (scenario_second_variant symbol chain id0 id1 id2 address T2)).
    rewrite TA. reflexivity.
Qed.

Lemma wrapped_variant_fallback_witness :
  let P := second_variant_succeeds (JStr "bitcoin") (JStr "wrapped-bitcoin")
                                   (JStr "wbtc") "eth" (JStr "0xBTC123") in
  short_circuited "BTC" = false
  /\ get_token_contract P "BTC" "eth" []
     = (Ok (JStr "0xBTC123"),
        [ EGet (CoingeckoSearch "btc"); EGet (CoingeckoCoin (JStr "bitcoin"));
          EGet (CoingeckoSearch "wrapped btc");
          EGet (CoingeckoCoin (JStr "wrapped-bitcoin"));
          EGet (CoingeckoSearch "wbtc"); EGet (CoingeckoCoin (JStr "wbtc")) ]).
Proof.
  intros P. split; [reflexivity |].
  destruct wrapped_variant_fallback as [H _].
  destruct (H P "BTC" "eth" []
              [ EGet (CoingeckoSearch "btc");
                EGet (CoingeckoCoin (JStr "bitcoin")) ]
              JNull eq_refl eq_refl eq_refl
              JNull
              [ EGet (CoingeckoSearch "btc");
                EGet (CoingeckoCoin (JStr "bitcoin"));
                EGet (CoingeckoSearch "wrapped btc");
                EGet (CoingeckoCoin (JStr "wrapped-bitcoin")) ]
              eq_refl) as [_ H1].
  destruct (H1 eq_refl (JStr "0xBTC123")
               [ EGet (CoingeckoSearch "btc");
                 EGet (CoingeckoCoin (JStr "bitcoin"));
                 EGet (CoingeckoSearch "wrapped btc");
                 EGet (CoingeckoCoin (JStr "wrapped-bitcoin"));
                 EGet (CoingeckoSearch "wbtc");
                 EGet (CoingeckoCoin (JStr "wbtc")) ]
               eq_refl) as [H2 _].
  exact (proj1 (H2 eq_refl)).
Defined.

(* ===================================================================== *)
(** ** Which effects a computation may add to the trace *)
(* ===================================================================== *)

Section Adds.

Variable Q : event -> Prop.

Lemma adds_ret {A : Type} (a : A) : adds Q (ret a).
Proof. intros tr. exists []. simpl. now rewrite app_nil_r. Qed.

Lemma adds_raise {A : Type} (e : exn) : adds Q (@raise A e).
Proof. intros tr. exists []. simpl. now rewrite app_nil_r. Qed.

Lemma adds_lift {A : Type} (r : result A) : adds Q (lift r).
Proof. intros tr. exists []. simpl. now rewrite app_nil_r. Qed.

Lemma adds_bind {A B : Type} (m : M A) (k : A -> M B) :
  adds Q m -> (forall a, adds Q (k a)) -> adds Q (bind m k).
Proof.
  intros Hm Hk tr. unfold bind.
  destruct (Hm tr) as [d [E F]].
  destruct (m tr) as [[a | e] t]; simpl in E; subst t.
  - destruct (Hk a (tr ++ d)) as [d' [E' F']].
    exists (d ++ d'). rewrite E', app_assoc. split; [reflexivity |].
    now apply Forall_app.
  - exists d. now split.
Qed.

Lemma adds_try_except {A : Type} (m : M A) (handled : exn -> bool)
      (h : exn -> M A) :
  adds Q m -> (forall e, adds Q (h e)) -> adds Q (try_except m handled h).
Proof.
  intros Hm Hh tr. unfold try_except.
  destruct (Hm tr) as [d [E F]].
  destruct (m tr) as [[a | e] t]; simpl in E; subst t.
  - exists d. now split.
  - destruct (handled e).
    + destruct (Hh e (tr ++ d)) as [d' [E' F']].
      exists (d ++ d'). rewrite E', app_assoc. split; [reflexivity |].
      now apply Forall_app.
    + exists d. now split.
Qed.

Lemma adds_if {A : Type} (b : bool) (m1 m2 : M A) :
  adds Q m1 -> adds Q m2 -> adds Q (if b then m1 else m2).
Proof. now destruct b. Qed.

Lemma adds_sleep (s : Z) : Q (ESleep s) -> adds Q (sleep s).
Proof. intros H tr. exists [ESleep s]. split; [reflexivity | auto]. Qed.

Lemma adds_client_get (P : providers) (r : request) :
  Q (EGet r) -> adds Q (client_get P r).
Proof. intros H tr. exists [EGet r]. split; [reflexivity | auto]. Qed.

Lemma adds_response_json (r : response) : adds Q (response_json r).
Proof.
  unfold response_json. destruct (parsed r); [apply adds_raise | apply adds_ret].
Qed.

End Adds.

Create HintDb adds.
#[local] Hint Resolve adds_ret adds_raise adds_lift adds_response_json : adds.

Ltac adds_step :=
  first [ assumption
        | apply adds_bind; [| intros ? ]
        | apply adds_try_except; [| intros ? ]
        | apply adds_if
        | apply adds_client_get; exact I
        | apply adds_sleep; exact I
        | solve [ auto with adds ] ].

Section Resolution.

Variable P : providers.

Lemma adds_get_token_id (query : string) :
  adds resolution_event (get_token_id P query).
Proof.
  unfold get_token_id.
  induction (py_range 1 (3 + 1)) as [| a l IH]; simpl.
  - apply adds_ret.
  - repeat adds_step.
Qed.

Lemma adds_get_contract (token_id : json) (query chain : string) :
  adds resolution_event (_get_contract_from_coingecko P token_id query chain).
Proof.
  unfold _get_contract_from_coingecko. repeat adds_step.
Qed.

Lemma adds_wrapped_loop (variants : list string) (chain : string) :
  adds resolution_event (wrapped_loop P variants chain).
Proof.
  induction variants as [| query rest IH]; simpl.
  - apply adds_ret.
  - apply adds_bind; [apply adds_get_token_id | intros token_id].
    apply adds_bind; [apply adds_get_contract | intros c].
    apply adds_if; [apply adds_ret | exact IH].
Qed.

Lemma adds_ethplorer_fallback (symbol : string) :
  adds resolution_event (ethplorer_fallback P symbol).
Proof.
  unfold ethplorer_fallback. repeat adds_step.
Qed.

Lemma adds_get_token_contract (symbol chain : string) :
  adds resolution_event (get_token_contract P symbol chain).
Proof.
  unfold get_token_contract.
  apply adds_if; [apply adds_ret |].
  apply adds_if; [apply adds_ret |].
  apply adds_bind; [apply adds_get_token_id | intros token_id].
  apply adds_bind; [apply adds_get_contract | intros c].
  apply adds_if; [apply adds_ret |].
  apply adds_bind; [apply adds_wrapped_loop | intros [a |]].
  - apply adds_ret.
  - apply adds_ethplorer_fallback.
Qed.

Lemma resolution_no_moralis (symbol chain : string) (tr t : trace)
      (r : result json) :
  get_token_contract P symbol chain tr = (r, t) ->
  count is_moralis t = count is_moralis tr
  /\ count is_chat t = count is_chat tr.
Proof.
  intros H. destruct (adds_get_token_contract symbol chain tr) as [d [E F]].
  rewrite H in E. simpl in E. subst t. rewrite !count_app.
  rewrite (count_none is_moralis d), (count_none is_chat d); [lia | |];
    (eapply Forall_impl; [| exact F]);
    intros [[] | |]; simpl; intros; tauto || reflexivity.
Qed.

End Resolution.

(* ===================================================================== *)
(** ** The aggregator behind an unresolved contract *)
(* ===================================================================== *)

(** C5. When [get_token_contract] returns [None], [get_crypto_price]
    returns the dictionary whose only key is "error", with a message that
    mentions "contract address not found" (up to case), and
    [get_crypto_metadata] returns an error dictionary as well, whose
    message is "Unable to retrieve contract address for token ..."; both
    end with the trace the resolution left, in which there are no more
    requests to Moralis than before the call. *)
Theorem absent_contract_gates_pricing :
  forall (P : providers) (symbol chain : string) (tr tr' : trace),
    get_token_contract P symbol chain tr = (Ok JNull, tr') ->
    let price_msg :=
      ("Contract address not found for token " ++ symbol ++ " on chain "
       ++ chain ++ ". Moralis data unavailable.")%string in
    let metadata_msg :=
      ("Unable to retrieve contract address for token " ++ symbol
       ++ " on chain " ++ chain)%string in
    get_crypto_price P symbol chain tr
    = (Ok (JObj [ ("error", JStr price_msg) ]), tr')
    /\ mentions "contract address not found" (lower price_msg)
    /\ get_crypto_metadata P symbol chain tr
       = (Ok (JObj [ ("error", JStr metadata_msg) ]), tr')
    /\ mentions "contract address" metadata_msg
    /\ count is_moralis tr' = count is_moralis tr.
Proof.
  intros P symbol chain tr tr' H price_msg metadata_msg. repeat split.
  - unfold get_crypto_price, bind. now rewrite H.
  - exists ""%string.
    exists (lower (" for token " ++ symbol ++ " on chain " ++ chain
                   ++ ". Moralis data unavailable.")%string).
    reflexivity.
  - unfold get_crypto_metadata, bind. now rewrite H.
  - exists "Unable to retrieve "%string.
    exists (" for token " ++ symbol ++ " on chain " ++ chain)%string.
    reflexivity.
  - apply (resolution_no_moralis P symbol chain tr tr' _ H).
Qed.

Lemma absent_contract_gates_pricing_witness :
  get_token_contract (scripted []) "SOL" "eth" [] = (Ok JNull, [])
  /\ get_crypto_price (scripted []) "SOL" "eth" []
     = (Ok (JObj [ ("error",
                    JStr "Contract address not found for token SOL on chain eth. Moralis data unavailable.") ]),
        [])
  /\ get_crypto_metadata (scripted []) "SOL" "eth" []
     = (Ok (JObj [ ("error",
                    JStr "Unable to retrieve contract address for token SOL on chain eth") ]),
        []).
Proof.
  split; [reflexivity |].
  destruct (absent_contract_gates_pricing (scripted []) "SOL" "eth" [] []
                                          eq_refl) as [Hp [_ [Hm _]]].
  split; [exact Hp | exact Hm].
Defined.

(* ===================================================================== *)
(** ** Empty addresses *)
(* ===================================================================== *)

Lemma ethplorer_fallback_result (P : providers) (symbol : string)
      (tr t : trace) (v : json) :
  ethplorer_fallback P symbol tr = (Ok v, t) ->
  v = JNull \/ truthy v = true.
Proof.
  unfold ethplorer_fallback, try_except, bind, client_get, response_json,
    lift, ret, raise, any_exception.
  destruct (http_get P tr (EthplorerSearch symbol)) as [r | e];
    [| intros H; inversion H; auto].
  destruct (status_code r =? 200); [| intros H; inversion H; auto].
  destruct (parsed r) as [msg | data]; [intros H; inversion H; auto |].
  destruct (py_get data "tokens" JNull) as [tokens | e];
    [| intros H; inversion H; auto].
  destruct (truthy tokens);
    [| intros H; inversion H; auto].
  destruct (py_len tokens) as [n | e]; [| intros H; inversion H; auto].
  destruct (0 <? n); [| intros H; inversion H; auto].
  destruct (py_first tokens) as [first | e]; [| intros H; inversion H; auto].
  destruct (py_get first "address" JNull) as [a | e];
    [| intros H; inversion H; auto].
  destruct (truthy a) eqn:T; intros H; inversion H; subst; auto.
Qed.

Lemma wrapped_loop_result (P : providers) (variants : list string)
      (chain : string) :
  forall (tr t : trace) (a : json),
    wrapped_loop P variants chain tr = (Ok (Some a), t) -> truthy a = true.
Proof.
  induction variants as [| query rest IH]; intros tr t a; simpl.
  - unfold ret. discriminate.
  - unfold bind.
    destruct (get_token_id P query tr) as [[token_id | e] t1]; [| discriminate].
    destruct (_get_contract_from_coingecko P token_id query chain t1)
      as [[c | e] t2]; [| discriminate].
    destruct (truthy c) eqn:T.
    + unfold ret. intros H. inversion H. now subst.
    + apply IH.
Qed.

Lemma get_token_contract_result (P : providers) (symbol chain : string)
      (tr t : trace) (v : json) :
  get_token_contract P symbol chain tr = (Ok v, t) ->
  v = JNull \/ truthy v = true.
Proof.
  unfold get_token_contract.
  destruct (py_in (upper symbol) ["ETH"; "ETHEREUM"]).
  { unfold ret. intros H. inversion H. right. reflexivity. }
  destruct (py_in (upper symbol) ["SOL"; "SOLANA"; "XLM"; "STELLAR"]).
  { unfold ret. intros H. inversion H. now left. }
  unfold bind.
  destruct (get_token_id P symbol tr) as [[token_id | e] t1]; [| discriminate].
  destruct (_get_contract_from_coingecko P token_id symbol chain t1)
    as [[c | e] t2]; [| discriminate].
  destruct (truthy c) eqn:T.
  { unfold ret. intros H. inversion H. subst. now right. }
  destruct (wrapped_loop P _ chain t2) as [[[a |] | e] t3] eqn:W;
    [| | discriminate].
  - unfold ret. intros H. inversion H. subst. right.
    eapply wrapped_loop_result. exact W.
  - apply ethplorer_fallback_result.
Qed.

(** C9. An empty-string contract address counts as no address.  The
    pipeline never returns the empty string: a returned value is [None] or
    truthy.  A Coingecko lookup that yields "" (the platform mapping maps
    the chain's key to "") is a failed stage, after which the pipeline goes
    on exactly as after a lookup that yields [None]: from the primary
    lookup to the wrapped variants, and from one wrapped variant to the
    next. *)
Theorem empty_address_is_absent :
  forall (P : providers) (symbol chain : string) (tr : trace),
    (forall (v : json) (t : trace),
        get_token_contract P symbol chain tr = (Ok v, t) ->
        v <> JStr "" /\ (v = JNull \/ truthy v = true))
    /\ (forall (token_id : json) (query : string) (r : response)
               (data platforms : json),
           truthy token_id = true ->
           http_get P tr (CoingeckoCoin token_id) = Ok r ->
           status_code r = 200 ->
           parsed r = Parsed data ->
           py_get data "platforms" (JObj []) = Ok platforms ->
           py_get platforms (mapping_get PLATFORM_MAPPING chain "ethereum")
                  JNull = Ok (JStr "") ->
           exists c : json,
             _get_contract_from_coingecko P token_id query chain tr
             = (Ok c, tr ++ [EGet (CoingeckoCoin token_id)])
             /\ truthy c = false)
    /\ (forall (c0 : json) (t0 : trace),
           short_circuited symbol = false ->
           coingecko_lookup P symbol chain tr = (Ok c0, t0) ->
           c0 = JStr "" \/ c0 = JNull ->
           get_token_contract P symbol chain tr
           = wrapped_then_ethplorer P symbol chain t0)
    /\ (forall (query : string) (rest : list string) (c : json) (t : trace),
           coingecko_lookup P query chain tr = (Ok c, t) ->
           c = JStr "" \/ c = JNull ->
           wrapped_loop P (query :: rest) chain tr
           = wrapped_loop P rest chain t).
Proof.
  intros P symbol chain tr. repeat split.
  - intros E. subst v.
    destruct (get_token_contract_result P symbol chain tr t _ H)
      as [N | N]; discriminate N.
  - eapply get_token_contract_result. exact H.
  - intros token_id query r data platforms T Hr Hs Hp Hpl Hc.
    exists (JStr ""). split; [| reflexivity].
    eapply contract_found; eassumption.
  - intros c0 t0 S H E.
    unfold wrapped_then_ethplorer.
    apply (get_token_contract_primary_failed P symbol chain tr t0 c0 S H).
    destruct E as [-> | ->]; reflexivity.
  - intros query rest c t H E.
    rewrite (wrapped_loop_step P query rest chain tr t c H).
    destruct E as [-> | ->]; reflexivity.
Qed.

Lemma empty_address_is_absent_witness :
  let P := empty_primary_then_wrapped in
  let t0 := [ EGet (CoingeckoSearch "btc");
              EGet (CoingeckoCoin (JStr "bitcoin")) ] in
  coingecko_lookup P "BTC" "eth" [] = (Ok (JStr ""), t0)
  /\ get_token_contract P "BTC" "eth" []
     = wrapped_then_ethplorer P "BTC" "eth" t0
  /\ wrapped_then_ethplorer P "BTC" "eth" t0
     = (Ok (JStr "0xWBTC"),
        t0 ++ [ EGet (CoingeckoSearch "wrapped btc");
                EGet (CoingeckoCoin (JStr "wrapped-bitcoin")) ]).
Proof.
  intros P t0. split; [reflexivity |]. split; [| reflexivity].
  destruct (empty_address_is_absent P "BTC" "eth" []) as [_ [_ [H _]]].
  apply (H (JStr "") t0); [reflexivity | reflexivity | left; reflexivity].
Defined.

(* ===================================================================== *)
(** ** The price record *)
(* ===================================================================== *)

Lemma price_of_201 :
  get_crypto_price created_201 "ETH" "eth" []
  = (Ok (JObj [ ("error", JStr "Moralis API error. Code: 201");
                ("response", JStr "<json>") ]),
     [ EGet (MoralisPrice (JStr WETH_ADDRESS) "eth") ]).
Proof. reflexivity. Qed.

(** C7, counterexample: a response with status 201 and a well-formed body
    gives the error dictionary of the status test, not a price record. *)
Lemma price_record_needs_status_200 : ~ price_record_for_every_2xx.
Proof.
  intros H.
  specialize (H created_201 "ETH" "eth" [] [] (JStr WETH_ADDRESS)
                (mkResponse 201 "<json>"
                            (Parsed (JObj [ ("usdPrice", JInt 65000) ])))
                [ ("usdPrice", JInt 65000) ]
                eq_refl eq_refl eq_refl).
  rewrite price_of_201 in H.
  assert (S : successful 201) by (unfold successful; lia).
  specialize (H S eq_refl). discriminate H.
Qed.

(** C7, amended: for every response of the pricing provider with status
    200 whose body parses to a JSON object, [get_crypto_price] returns the
    price record: nine keys in fixed order, each of the six price fields
    equal to the payload's value when the payload has the key and to "N/A"
    when it has not, the source "Moralis", and the payload itself under
    "raw_response". *)
Theorem price_record_normalized :
  forall (P : providers) (symbol chain : string) (tr t : trace)
         (address : json) (r : response) (m : list (string * json)),
    get_token_contract P symbol chain tr = (Ok address, t) ->
    truthy address = true ->
    http_get P t (MoralisPrice address chain) = Ok r ->
    status_code r = 200 ->
    parsed r = Parsed (JObj m) ->
    get_crypto_price P symbol chain tr
    = (Ok (price_record symbol m), t ++ [EGet (MoralisPrice address chain)])
    /\ (forall out key : string,
           In (out, key) price_fields ->
           assoc key m = None ->
           py_item (price_record symbol m) out = Ok (JStr "N/A"))
    /\ py_item (price_record symbol m) "source" = Ok (JStr "Moralis")
    /\ py_item (price_record symbol m) "raw_response" = Ok (JObj m).
Proof.
  intros P symbol chain tr t address r m H T Hr Hs Hp. repeat split.
  - unfold get_crypto_price, bind at 1. rewrite H, T. cbn [negb].
    unfold bind at 1, client_get. rewrite Hr, Hs.
    change (negb (200 =? 200)) with false. cbv iota.
    unfold try_except, response_json. rewrite Hp. reflexivity.
  - intros out key I A. unfold price_record, field_or_na.
    simpl in I.
    repeat (destruct I as [I | I];
            [inversion I; subst; simpl; rewrite A; reflexivity |]).
    contradiction.
Qed.

Lemma price_record_normalized_witness :
  let P := scripted [ http_json 200 (JObj [ ("usdPrice", JInt 65000);
                                            ("priceChangePercent", JInt 2) ]) ] in
  get_crypto_price P "ETH" "eth" []
  = (Ok (JObj [ ("symbol", JStr "ETH");
                ("current_price", JInt 65000);
                ("price_change_24h", JStr "N/A");
                ("price_change_percent", JInt 2);
                ("high_24h", JStr "N/A");
                ("low_24h", JStr "N/A");
                ("volume", JStr "N/A");
                ("source", JStr "Moralis");
                ("raw_response", JObj [ ("usdPrice", JInt 65000);
                                        ("priceChangePercent", JInt 2) ]) ]),
     [ EGet (MoralisPrice (JStr WETH_ADDRESS) "eth") ]).
Proof.
  intros P.
  exact (proj1 (price_record_normalized
                  P "ETH" "eth" [] [] (JStr WETH_ADDRESS)
                  (mkResponse 200 "<json>"
                     (Parsed (JObj [ ("usdPrice", JInt 65000);
                                     ("priceChangePercent", JInt 2) ])))
                  [ ("usdPrice", JInt 65000); ("priceChangePercent", JInt 2) ]
                  eq_refl eq_refl eq_refl eq_refl eq_refl)).
Defined.

(* ===================================================================== *)
(** ** The metadata record *)
(* ===================================================================== *)

Lemma metadata_of_201 :
  get_crypto_metadata created_201_no_address "ETH" "eth" []
  = (Ok (JObj [ ("error", JStr "Moralis API error. Code: 201");
                ("response", JStr "<json>") ]),
     [ EGet (MoralisPrice (JStr WETH_ADDRESS) "eth") ]).
Proof. reflexivity. Qed.

(** C10, counterexample: a response with status 201 whose parsed body has
    no tokenAddress gives the error of the status test, not
    "Contract address not found". *)
Lemma address_error_needs_status_200 : ~ address_error_for_every_2xx.
Proof.
  intros H.
  specialize (H created_201_no_address "ETH" "eth" [] [] (JStr WETH_ADDRESS)
                (mkResponse 201 "<json>"
                   (Parsed (JObj [ ("tokenName", JStr "Wrapped Ether") ])))
                [ ("tokenName", JStr "Wrapped Ether") ]
                eq_refl eq_refl eq_refl).
  rewrite metadata_of_201 in H.
  assert (S : successful 201) by (unfold successful; lia).
  specialize (H S eq_refl eq_refl). discriminate H.
Qed.

Section Metadata.

Variables (P : providers) (symbol chain : string) (tr t : trace).
Variables (address : json) (r : response) (m : list (string * json)).
Hypothesis resolved : get_token_contract P symbol chain tr = (Ok address, t).
Hypothesis present : truthy address = true.
Hypothesis answered : http_get P t (MoralisPrice address chain) = Ok r.
Hypothesis ok : status_code r = 200.
Hypothesis object : parsed r = Parsed (JObj m).

Lemma metadata_of_object :
  get_crypto_metadata P symbol chain tr
  = (Ok (if truthy (field_or_none m "tokenAddress")
         then metadata_record m
         else address_not_found),
     t ++ [EGet (MoralisPrice address chain)]).
Proof.
  unfold get_crypto_metadata, bind at 1. rewrite resolved, present.
  cbn [negb]. unfold bind at 1, client_get. rewrite answered, ok.
  change (negb (200 =? 200)) with false. cbv iota.
  unfold try_except, response_json. rewrite object.
  unfold bind, ret, lift, py_get, metadata_record.
  fold (field_or_none m "tokenName"). fold (field_or_none m "tokenSymbol").
  fold (field_or_none m "tokenLogo"). fold (field_or_none m "tokenDecimals").
  fold (field_or_none m "nativePrice"). fold (field_or_none m "usdPrice").
  fold (field_or_none m "exchangeName").
  fold (field_or_none m "exchangeAddress").
  fold (field_or_none m "tokenAddress").
  cbn [py_item assoc String.eqb Ascii.eqb Bool.eqb].
  destruct (truthy (field_or_none m "tokenAddress")); reflexivity.
Qed.

End Metadata.

(** Whatever [get_crypto_metadata] returns without raising is either the
    metadata record of a status-200 response with a JSON object as body, or
    a dictionary with the key "error". *)
Lemma metadata_cases (P : providers) (symbol chain : string) (tr t : trace)
      (v : json) :
  get_crypto_metadata P symbol chain tr = (Ok v, t) ->
  (exists (address : json) (t0 : trace) (r : response)
          (m : list (string * json)),
      get_token_contract P symbol chain tr = (Ok address, t0)
      /\ http_get P t0 (MoralisPrice address chain) = Ok r
      /\ status_code r = 200
      /\ parsed r = Parsed (JObj m)
      /\ truthy (field_or_none m "tokenAddress") = true
      /\ v = metadata_record m)
  \/ (exists (msg : string) (rest : list (string * json)),
         v = JObj (("error", JStr msg) :: rest)
         /\ assoc "tokenAddress" rest = None).
Proof.
  intros H.
  destruct (get_token_contract P symbol chain tr) as [[address | e] t0] eqn:G.
  2:{ unfold get_crypto_metadata, bind in H. rewrite G in H. discriminate. }
  destruct (truthy address) eqn:T.
  2:{ unfold get_crypto_metadata, bind in H. rewrite G, T in H.
      inversion H. right. eauto. }
  destruct (http_get P t0 (MoralisPrice address chain)) as [r | e] eqn:R.
  2:{ unfold get_crypto_metadata, bind, client_get in H.
      rewrite G, T in H. cbn [negb] in H. rewrite R in H. discriminate. }
  destruct (status_code r =? 200) eqn:S.
  2:{ unfold get_crypto_metadata, bind, client_get in H.
      rewrite G, T in H. cbn [negb] in H. rewrite R, S in H.
      inversion H. right. eauto. }
  apply Z.eqb_eq in S.
  destruct (parsed r) as [msg | data] eqn:B.
  { unfold get_crypto_metadata, bind, client_get in H.
    rewrite G, T in H. cbn [negb] in H. rewrite R, S in H.
    unfold try_except, response_json in H. rewrite B in H.
    inversion H. right. eauto. }
  destruct data as [| b | n | f | s | l | m].
  7:{ rewrite (metadata_of_object P symbol chain tr t0 address r m G T R S B)
        in H.
      inversion H.
      destruct (truthy (field_or_none m "tokenAddress")) eqn:A.
      - left. exists address, t0, r, m. repeat split; auto.
      - right. unfold address_not_found. eauto. }
  all: unfold get_crypto_metadata, bind, client_get in H;
    rewrite G, T in H; cbn [negb] in H; rewrite R, S in H;
    unfold try_except, response_json in H; rewrite B in H;
    inversion H; right; eauto.
Qed.

(** C10, amended: when the response of the pricing provider has status 200
    and its body parses to a JSON object, [get_crypto_metadata] returns
    {"error": "Contract address not found"} if the object's tokenAddress is
    absent or falsy, whatever the other fields, and the metadata record if
    it is truthy; and whenever [get_crypto_metadata] returns a dictionary
    with a tokenAddress, that dictionary is the metadata record of such a
    response and its tokenAddress is present in the payload and truthy. *)
Theorem metadata_requires_token_address :
  forall (P : providers) (symbol chain : string) (tr : trace),
    (forall (t : trace) (address : json) (r : response)
            (m : list (string * json)),
        get_token_contract P symbol chain tr = (Ok address, t) ->
        truthy address = true ->
        http_get P t (MoralisPrice address chain) = Ok r ->
        status_code r = 200 ->
        parsed r = Parsed (JObj m) ->
        (truthy (field_or_none m "tokenAddress") = false ->
         get_crypto_metadata P symbol chain tr
         = (Ok (JObj [ ("error", JStr "Contract address not found") ]),
            t ++ [EGet (MoralisPrice address chain)]))
        /\ (truthy (field_or_none m "tokenAddress") = true ->
            get_crypto_metadata P symbol chain tr
            = (Ok (metadata_record m),
               t ++ [EGet (MoralisPrice address chain)])))
    /\ (forall (v a : json) (t : trace),
           get_crypto_metadata P symbol chain tr = (Ok v, t) ->
           py_item v "tokenAddress" = Ok a ->
           truthy a = true
           /\ exists (address : json) (t0 : trace) (r : response)
                     (m : list (string * json)),
               get_token_contract P symbol chain tr = (Ok address, t0)
               /\ http_get P t0 (MoralisPrice address chain) = Ok r
               /\ status_code r = 200
               /\ parsed r = Parsed (JObj m)
               /\ assoc "tokenAddress" m = Some a
               /\ v = metadata_record m).
Proof.
  intros P symbol chain tr. split.
  - intros t address r m G T R S B.
    rewrite (metadata_of_object P symbol chain tr t address r m G T R S B).
    split; intros A; rewrite A; reflexivity.
  - intros v a t H I.
    destruct (metadata_cases P symbol chain tr t v H)
      as [[address [t0 [r [m [G [R [S [B [A E]]]]]]]]] | [msg [rest [E N]]]].
    + subst v. simpl in I. inversion I. subst a. split; [exact A |].
      exists address, t0, r, m. repeat split; auto.
      unfold field_or_none in A |- *.
      destruct (assoc "tokenAddress" m); [reflexivity | discriminate A].
    + subst v. simpl in I. rewrite N in I. discriminate I.
Qed.

Lemma metadata_requires_token_address_witness :
  get_crypto_metadata ok_200_empty_address "ETH" "eth" []
  = (Ok (JObj [ ("error", JStr "Contract address not found") ]),
     [ EGet (MoralisPrice (JStr WETH_ADDRESS) "eth") ]).
Proof.
  destruct (metadata_requires_token_address
              ok_200_empty_address "ETH" "eth" []) as [H _].
  destruct (H [] (JStr WETH_ADDRESS)
              (mkResponse 200 "<json>"
                 (Parsed (JObj [ ("tokenName", JStr "Wrapped Ether");
                                 ("usdPrice", JInt 3000);
                                 ("tokenAddress", JStr "") ])))
              [ ("tokenName", JStr "Wrapped Ether");
                ("usdPrice", JInt 3000);
                ("tokenAddress", JStr "") ]
              eq_refl eq_refl eq_refl eq_refl eq_refl) as [E _].
  exact (E eq_refl).
Defined.

(* ===================================================================== *)
(** ** Faults that are caught, and faults that escape *)
(* ===================================================================== *)

(** The Ethplorer stage never raises: its [except Exception] turns every
    fault of the provider into [None]. *)
Lemma ethplorer_fallback_total (P : providers) (symbol : string) (tr : trace) :
  exists (v : json) (t : trace), ethplorer_fallback P symbol tr = (Ok v, t).
Proof.
  unfold ethplorer_fallback, try_except.
  match goal with
  | |- context [match ?body tr with _ => _ end] =>
      destruct (body tr) as [[v | e] t]
  end.
  - eauto.
  - unfold any_exception, ret. eauto.
Qed.

(** Statuses other than 200 are no fault: when every request is answered,
    and never with status 200, every Coingecko lookup gives [None] and the
    pipeline returns a value. *)
Section Non200.

Variable P : providers.
Hypothesis never_200 :
  forall (tr : trace) (req : request),
  exists r : response, http_get P tr req = Ok r /\ status_code r <> 200.

Lemma get_token_id_loop_non_200 (url : request) (l : list Z) :
  forall tr : trace,
  exists t : trace, get_token_id_loop P url l tr = (Ok JNull, t).
Proof.
  induction l as [| a l IH]; intros tr; simpl.
  - unfold ret. eauto.
  - unfold bind at 1. unfold client_get.
    destruct (never_200 tr url) as [r [E S]]. rewrite E.
    destruct (status_code r =? 429).
    + unfold bind, sleep. apply IH.
    + apply Z.eqb_neq in S. rewrite S. unfold ret. simpl. eauto.
Qed.

Lemma coingecko_lookup_non_200 (query chain : string) (tr : trace) :
  exists t : trace, coingecko_lookup P query chain tr = (Ok JNull, t).
Proof.
  unfold coingecko_lookup, bind, get_token_id.
  destruct (get_token_id_loop_non_200 (CoingeckoSearch (lower query))
              (py_range 1 (3 + 1)) tr) as [t E].
  rewrite E. unfold _get_contract_from_coingecko, ret. simpl. eauto.
Qed.

Lemma get_token_contract_non_200 (symbol chain : string) (tr : trace) :
  exists (v : json) (t : trace),
    get_token_contract P symbol chain tr = (Ok v, t).
Proof.
  destruct (short_circuited symbol) eqn:S.
  - unfold short_circuited in S. unfold get_token_contract.
    destruct (py_in (upper symbol) ["ETH"; "ETHEREUM"]) eqn:A;
      [unfold ret; eauto |].
    destruct (py_in (upper symbol) ["SOL"; "SOLANA"; "XLM"; "STELLAR"]) eqn:B;
      [unfold ret; eauto | discriminate S].
  - destruct (coingecko_lookup_non_200 symbol chain tr) as [t0 E0].
    rewrite (get_token_contract_primary_failed P symbol chain tr t0 JNull
               S E0 eq_refl).
    unfold bind.
    destruct (coingecko_lookup_non_200 ("wrapped " ++ symbol)%string chain t0)
      as [t1 E1].
    rewrite (wrapped_loop_step P _ _ chain t0 t1 JNull E1). cbn [truthy].
    destruct (coingecko_lookup_non_200 ("w" ++ lower symbol)%string chain t1)
      as [t2 E2].
    rewrite (wrapped_loop_step P _ _ chain t1 t2 JNull E2). cbn [truthy].
    destruct (coingecko_lookup_non_200 ("wrapped-" ++ lower symbol)%string
                                       chain t2) as [t3 E3].
    rewrite (wrapped_loop_step P _ _ chain t2 t3 JNull E3). cbn [truthy].
    simpl. apply ethplorer_fallback_total.
Qed.

End Non200.

(** A report can only be written from a dictionary with a price: on any
    other dictionary the prompt cannot be built. *)
Lemma report_without_price (P : providers) (symbol : string) (tr t : trace)
      (d : list (string * json)) :
  get_crypto_price P symbol "eth" tr = (Ok (JObj d), t) ->
  assoc "current_price" d = None ->
  generate_crypto_report P symbol tr
  = (Raise (KeyError (JStr "current_price")), t).
Proof.
  intros H N. unfold generate_crypto_report, bind at 1. rewrite H.
  unfold bind at 1, lift, py_item. now rewrite N.
Qed.

(** C6, the code at the failing input.  For the unsupported symbol "SOL"
    [get_crypto_price] returns its error dictionary without any request;
    [generate_crypto_report] then raises [KeyError('current_price')] while
    formatting the prompt: the error dictionary is not returned.  No
    generative-text call is made. *)
Theorem report_raises_on_price_error :
  forall (P : providers) (tr : trace),
    get_crypto_price P "SOL" "eth" tr
    = (Ok (JObj [ ("error",
                   JStr "Contract address not found for token SOL on chain eth. Moralis data unavailable.") ]),
       tr)
    /\ generate_crypto_report P "SOL" tr
       = (Raise (KeyError (JStr "current_price")), tr).
Proof.
  intros P tr.
  assert (E : get_crypto_price P "SOL" "eth" tr
              = (Ok (JObj [ ("error",
                             JStr "Contract address not found for token SOL on chain eth. Moralis data unavailable.") ]),
                 tr)) by reflexivity.
  split; [exact E |].
  apply (report_without_price P "SOL" tr tr _ E). reflexivity.
Qed.

(** C8, the code at two failing inputs.  A 200 answer of the search
    provider whose body is not JSON makes [get_token_id] raise
    [JSONDecodeError]; a transport fault makes it raise what the client
    raised.  Neither is caught by [get_token_contract], [get_crypto_price]
    or [get_crypto_metadata]: each ends with the exception instead of a
    value. *)
Theorem provider_fault_escapes :
  let bad_body := JSONDecodeError "Expecting value: line 1 column 1 (char 0)" in
  let refused := RequestError "All connection attempts failed" in
  let searched := [ EGet (CoingeckoSearch "btc") ] in
  get_token_id html_instead_of_json "BTC" [] = (Raise bad_body, searched)
  /\ get_token_contract html_instead_of_json "BTC" "eth" []
     = (Raise bad_body, searched)
  /\ get_crypto_price html_instead_of_json "BTC" "eth" []
     = (Raise bad_body, searched)
  /\ get_crypto_metadata html_instead_of_json "BTC" "eth" []
     = (Raise bad_body, searched)
  /\ get_token_id connection_refused "BTC" [] = (Raise refused, searched)
  /\ get_token_contract connection_refused "BTC" "eth" []
     = (Raise refused, searched)
  /\ get_crypto_price connection_refused "BTC" "eth" []
     = (Raise refused, searched).
Proof. repeat split. Qed.

(* ===================================================================== *)
(** ** The Token ID Resolver and the Contract Resolver, case by case *)
(* ===================================================================== *)

(** X1. [get_token_id] retries on 429 only.  An answer with any other
    status than 200, or a 200 answer whose dictionary has no "coins" or a
    falsy one (an empty list), ends the call with [None] after that single
    request, without a pause. *)
Theorem token_id_gives_up_at_once :
  forall (P : providers) (symbol : string) (tr : trace) (r : response),
    http_get P tr (CoingeckoSearch (lower symbol)) = Ok r ->
    status_code r <> 429 ->
    (status_code r <> 200
     \/ exists m : list (string * json),
          parsed r = Parsed (JObj m)
          /\ truthy (match assoc "coins" m with
                     | Some coins => coins
                     | None => JArr []
                     end) = false) ->
    get_token_id P symbol tr
    = (Ok JNull, tr ++ [EGet (CoingeckoSearch (lower symbol))]).
Proof.
  intros P symbol tr r Hr N429 H.
  unfold get_token_id. rewrite retries_range. simpl.
  unfold bind at 1. unfold client_get. rewrite Hr.
  apply Z.eqb_neq in N429. rewrite N429.
  destruct (status_code r =? 200) eqn:S; [| reflexivity].
  destruct H as [N200 | [m [B C]]].
  - apply Z.eqb_eq in S. contradiction.
  - cbn [negb]. unfold response_json. rewrite B.
    unfold bind, ret, lift, py_get. now rewrite C.
Qed.

Lemma token_id_gives_up_at_once_witness :
  get_token_id not_found_everywhere "BTC" []
  = (Ok JNull, [EGet (CoingeckoSearch "btc")])
  /\ get_token_id small_world "DOGE" []
     = (Ok JNull, [EGet (CoingeckoSearch "doge")]).
Proof.
  split.
  - apply (token_id_gives_up_at_once
             not_found_everywhere "BTC" []
             (mkResponse 404 "Not Found"
                (Malformed "Expecting value: line 1 column 1 (char 0)")));
      [reflexivity | discriminate | left; discriminate].
  - apply (token_id_gives_up_at_once
             small_world "DOGE" []
             (mkResponse 200 "<json>" (Parsed (JObj [ ("coins", JArr []) ]))));
      [reflexivity | discriminate |].
    right. exists [ ("coins", JArr []) ]. split; reflexivity.
Defined.

(** X2. The outcomes of [_get_contract_from_coingecko].  With a falsy
    token id it returns [None] and sends nothing.  Otherwise it sends one
    request for the coin; a status other than 200 gives [None]; a 200
    answer that is a dictionary gives the value its "platforms" dictionary
    holds under the platform key of the chain, and [None] when "platforms"
    or the key is missing. *)
Theorem contract_resolver_outcomes :
  forall (P : providers) (token_id : json) (query chain : string)
         (tr : trace),
    (truthy token_id = false ->
     _get_contract_from_coingecko P token_id query chain tr = (Ok JNull, tr))
    /\ (truthy token_id = true ->
        forall r : response,
          http_get P tr (CoingeckoCoin token_id) = Ok r ->
          let sent := tr ++ [EGet (CoingeckoCoin token_id)] in
          let key := mapping_get PLATFORM_MAPPING chain "ethereum" in
          (status_code r <> 200 ->
           _get_contract_from_coingecko P token_id query chain tr
           = (Ok JNull, sent))
          /\ (forall m : list (string * json),
                 status_code r = 200 ->
                 parsed r = Parsed (JObj m) ->
                 (assoc "platforms" m = None ->
                  _get_contract_from_coingecko P token_id query chain tr
                  = (Ok JNull, sent))
                 /\ (forall platforms : list (string * json),
                        assoc "platforms" m = Some (JObj platforms) ->
                        _get_contract_from_coingecko P token_id query chain tr
                        = (Ok (field_or_none platforms key), sent)))).
Proof.
  intros P token_id query chain tr. split.
  - intros F. unfold _get_contract_from_coingecko. now rewrite F.
  - intros T r Hr sent key. split.
    + intros N. unfold _get_contract_from_coingecko. rewrite T. cbn [negb].
      unfold bind at 1. unfold client_get. rewrite Hr.
      apply Z.eqb_neq in N. now rewrite N.
    + intros m S B. split.
      * intros A.
        apply (contract_found P token_id query chain tr r (JObj m) (JObj [])
                              JNull T Hr S B).
        -- unfold py_get. now rewrite A.
        -- reflexivity.
      * intros platforms A.
        apply (contract_found P token_id query chain tr r (JObj m)
                              (JObj platforms) _ T Hr S B).
        -- unfold py_get. now rewrite A.
        -- reflexivity.
Qed.

Lemma contract_resolver_outcomes_witness :
  _get_contract_from_coingecko small_world JNull "doge" "eth" []
  = (Ok JNull, [])
  /\ _get_contract_from_coingecko small_world (JStr "bitcoin") "BTC" "eth" []
     = (Ok (JStr "0xBTC123"), [EGet (CoingeckoCoin (JStr "bitcoin"))])
  /\ _get_contract_from_coingecko small_world (JStr "bitcoin") "BTC" "bsc" []
     = (Ok JNull, [EGet (CoingeckoCoin (JStr "bitcoin"))])
  /\ _get_contract_from_coingecko not_found_everywhere (JStr "bitcoin") "BTC"
                                  "eth" []
     = (Ok JNull, [EGet (CoingeckoCoin (JStr "bitcoin"))]).
Proof.
  split; [| split; [| split]].
  - apply (proj1 (contract_resolver_outcomes small_world JNull "doge" "eth" [])).
    reflexivity.
  - refine (proj2 (proj2 (proj2 (contract_resolver_outcomes
                                   small_world (JStr "bitcoin") "BTC" "eth" [])
                                eq_refl _ eq_refl)
                         _ eq_refl eq_refl) _ eq_refl).
  - refine (proj2 (proj2 (proj2 (contract_resolver_outcomes
                                   small_world (JStr "bitcoin") "BTC" "bsc" [])
                                eq_refl _ eq_refl)
                         _ eq_refl eq_refl) _ eq_refl).
  - refine (proj1 (proj2 (contract_resolver_outcomes
                            not_found_everywhere (JStr "bitcoin") "BTC" "eth" [])
                         eq_refl _ eq_refl) _).
    discriminate.
Defined.

(* ===================================================================== *)
(** ** The chain, and the last-resort stage *)
(* ===================================================================== *)

Lemma bind_ext {A B : Type} (m : M A) (k k' : A -> M B) (tr : trace) :
  (forall (a : A) (t : trace), k a t = k' a t) ->
  bind m k tr = bind m k' tr.
Proof.
  intros H. unfold bind. destruct (m tr) as [[a | e] t]; [apply H | reflexivity].
Qed.

Lemma mapping_get_default (m : list (string * string)) (k default : string) :
  ~ In k (map fst m) -> mapping_get m k default = default.
Proof.
  induction m as [| [k' v] m IH]; simpl; intros N; [reflexivity |].
  destruct (String.eqb_spec k k') as [E | _].
  - exfalso. apply N. left. now symmetry.
  - apply IH. intros I. apply N. now right.
Qed.

Section SamePlatformKey.

Variables (P : providers) (chain chain' : string).
Hypothesis same_key :
  mapping_get PLATFORM_MAPPING chain "ethereum"
  = mapping_get PLATFORM_MAPPING chain' "ethereum".

Lemma contract_same_key (token_id : json) (query : string) :
  _get_contract_from_coingecko P token_id query chain
  = _get_contract_from_coingecko P token_id query chain'.
Proof.
  unfold _get_contract_from_coingecko. now rewrite same_key.
Qed.

Lemma wrapped_loop_same_key (variants : list string) :
  forall tr : trace,
    wrapped_loop P variants chain tr = wrapped_loop P variants chain' tr.
Proof.
  induction variants as [| query rest IH]; intros tr; simpl; [reflexivity |].
  apply bind_ext. intros token_id t. rewrite contract_same_key.
  apply bind_ext. intros c t'. destruct (truthy c); [reflexivity | apply IH].
Qed.

Lemma get_token_contract_same_key (symbol : string) (tr : trace) :
  get_token_contract P symbol chain tr = get_token_contract P symbol chain' tr.
Proof.
  unfold get_token_contract.
  destruct (py_in (upper symbol) ["ETH"; "ETHEREUM"]); [reflexivity |].
  destruct (py_in (upper symbol) ["SOL"; "SOLANA"; "XLM"; "STELLAR"]);
    [reflexivity |].
  apply bind_ext. intros token_id t. rewrite contract_same_key.
  apply bind_ext. intros c t'. destruct (truthy c); [reflexivity |].
  unfold bind. rewrite wrapped_loop_same_key. reflexivity.
Qed.

End SamePlatformKey.

(** X3. The resolution uses the chain only to choose the platform key.  A
    chain that is none of "eth", "bsc", "polygon", "avalanche", "fantom"
    (in exactly this spelling) is resolved as "eth": the same requests,
    the same result. *)
Theorem unknown_chain_resolves_as_eth :
  forall (P : providers) (symbol chain : string) (tr : trace),
    ~ In chain ["eth"; "bsc"; "polygon"; "avalanche"; "fantom"] ->
    get_token_contract P symbol chain tr
    = get_token_contract P symbol "eth" tr.
Proof.
  intros P symbol chain tr N.
  apply get_token_contract_same_key.
  rewrite (mapping_get_default PLATFORM_MAPPING chain "ethereum" N).
  reflexivity.
Qed.

Lemma unknown_chain_resolves_as_eth_witness :
  get_token_contract small_world "BTC" "ETH" []
  = get_token_contract small_world "BTC" "eth" []
  /\ get_token_contract small_world "BTC" "eth" []
     = (Ok (JStr "0xBTC123"),
        [EGet (CoingeckoSearch "btc"); EGet (CoingeckoCoin (JStr "bitcoin"))]).
Proof.
  split; [| reflexivity].
  apply (unknown_chain_resolves_as_eth small_world "BTC" "ETH" []).
  simpl. intros [H | [H | [H | [H | [H | []]]]]]; discriminate H.
Defined.

Lemma ethplorer_fallback_sends_once (P : providers) (symbol : string)
      (tr : trace) :
  snd (ethplorer_fallback P symbol tr)
  = tr ++ [EGet (EthplorerSearch symbol)].
Proof.
  unfold ethplorer_fallback, try_except, bind, client_get, response_json,
    lift, ret, raise, any_exception.
  destruct (http_get P tr (EthplorerSearch symbol)) as [r | e];
    [| reflexivity].
  destruct (status_code r =? 200); [| reflexivity].
  destruct (parsed r) as [msg | data]; [reflexivity |].
  destruct (py_get data "tokens" JNull) as [tokens | e]; [| reflexivity].
  destruct (truthy tokens); [| reflexivity].
  destruct (py_len tokens) as [n | e]; [| reflexivity].
  destruct (0 <? n); [| reflexivity].
  destruct (py_first tokens) as [first | e]; [| reflexivity].
  destruct (py_get first "address" JNull) as [a | e]; [| reflexivity].
  destruct (truthy a); reflexivity.
Qed.

(** X4. The last-resort stage of [get_token_contract] cannot fail.
    Whatever Ethplorer does - an exception of the client, any status, a
    body that is not JSON or JSON of any shape - the stage sends exactly
    one request, for the symbol as given, and yields [None] or a truthy
    address; it never raises. *)
Theorem ethplorer_stage_never_raises :
  forall (P : providers) (symbol : string) (tr : trace),
  exists v : json,
    ethplorer_fallback P symbol tr
    = (Ok v, tr ++ [EGet (EthplorerSearch symbol)])
    /\ (v = JNull \/ truthy v = true).
Proof.
  intros P symbol tr.
  destruct (ethplorer_fallback_total P symbol tr) as [v [t E]].
  exists v. split.
  - pose proof (ethplorer_fallback_sends_once P symbol tr) as S.
    rewrite E in S. simpl in S. now subst t.
  - eapply ethplorer_fallback_result. exact E.
Qed.

(** X5. Of the tokens Ethplorer returns only the first is looked at: with
    a 200 answer whose "tokens" is a list that starts with a dictionary,
    the stage yields that dictionary's "address" if it is truthy and
    [None] otherwise, whatever the other tokens are. *)
Theorem ethplorer_takes_first_token :
  forall (P : providers) (symbol : string) (tr : trace) (r : response)
         (m first : list (string * json)) (others : list json),
    http_get P tr (EthplorerSearch symbol) = Ok r ->
    status_code r = 200 ->
    parsed r = Parsed (JObj m) ->
    assoc "tokens" m = Some (JArr (JObj first :: others)) ->
    ethplorer_fallback P symbol tr
    = (Ok (if truthy (field_or_none first "address")
           then field_or_none first "address"
           else JNull),
       tr ++ [EGet (EthplorerSearch symbol)]).
Proof.
  intros P symbol tr r m first others Hr St B A.
  unfold ethplorer_fallback, try_except, bind at 1. unfold client_get.
  rewrite Hr, St. cbn [Z.eqb Pos.eqb]. unfold response_json. rewrite B.
  unfold bind, ret, lift, py_get. rewrite A.
  cbn [truthy py_len py_first List.length].
  replace (0 <? Z.of_nat (S (List.length others))) with true
    by (symmetry; apply Z.ltb_lt; lia).
  fold (field_or_none first "address").
  destruct (truthy (field_or_none first "address")); reflexivity.
Qed.

Lemma ethplorer_takes_first_token_witness :
  ethplorer_fallback small_world "DOGE" []
  = (Ok (JStr "0xD06E"), [EGet (EthplorerSearch "DOGE")]).
Proof.
  apply (ethplorer_takes_first_token
           small_world "DOGE" []
           (mkResponse 200 "<json>"
              (Parsed (JObj [ ("tokens",
                               JArr [ JObj [ ("address", JStr "0xD06E") ];
                                      JObj [ ("address", JStr "0xOTHER") ] ]) ])))
           [ ("tokens", JArr [ JObj [ ("address", JStr "0xD06E") ];
                               JObj [ ("address", JStr "0xOTHER") ] ]) ]
           [ ("address", JStr "0xD06E") ]
           [ JObj [ ("address", JStr "0xOTHER") ] ]);
    reflexivity.
Defined.

(* ===================================================================== *)
(** ** How many requests and pauses a resolution can take *)
(* ===================================================================== *)

Section Within.

Variable p : event -> bool.

Lemma within_nothing {A : Type} (m : M A) :
  (forall tr, snd (m tr) = tr) -> within p 0 m.
Proof.
  intros H tr. exists []. rewrite H, app_nil_r. split; [reflexivity |].
  unfold count. simpl. lia.
Qed.

Lemma within_ret {A : Type} (a : A) : within p 0 (ret a).
Proof. now apply within_nothing. Qed.

Lemma within_lift {A : Type} (r : result A) : within p 0 (lift r).
Proof. now apply within_nothing. Qed.

Lemma within_response_json (r : response) : within p 0 (response_json r).
Proof.
  apply within_nothing. intros tr. unfold response_json.
  destruct (parsed r); reflexivity.
Qed.

Lemma within_weaken {A : Type} (n n' : nat) (m : M A) :
  (n <= n')%nat -> within p n m -> within p n' m.
Proof.
  intros L H tr. destruct (H tr) as [d [E C]]. exists d. split; [exact E | lia].
Qed.

Lemma within_bind {A B : Type} (n1 n2 : nat) (m : M A) (k : A -> M B) :
  within p n1 m -> (forall a, within p n2 (k a)) ->
  within p (n1 + n2) (bind m k).
Proof.
  intros Hm Hk tr. unfold bind.
  destruct (Hm tr) as [d [E C]].
  destruct (m tr) as [[a | e] t]; simpl in E; subst t.
  - destruct (Hk a (tr ++ d)) as [d' [E' C']].
    exists (d ++ d'). rewrite E', app_assoc. split; [reflexivity |].
    rewrite count_app. lia.
  - exists d. split; [reflexivity | lia].
Qed.

Lemma within_try_except {A : Type} (n1 n2 : nat) (m : M A)
      (handled : exn -> bool) (h : exn -> M A) :
  within p n1 m -> (forall e, within p n2 (h e)) ->
  within p (n1 + n2) (try_except m handled h).
Proof.
  intros Hm Hh tr. unfold try_except.
  destruct (Hm tr) as [d [E C]].
  destruct (m tr) as [[a | e] t]; simpl in E; subst t.
  - exists d. split; [reflexivity | lia].
  - destruct (handled e).
    + destruct (Hh e (tr ++ d)) as [d' [E' C']].
      exists (d ++ d'). rewrite E', app_assoc. split; [reflexivity |].
      rewrite count_app. lia.
    + exists d. split; [reflexivity | lia].
Qed.

Lemma within_if {A : Type} (n : nat) (b : bool) (m1 m2 : M A) :
  within p n m1 -> within p n m2 -> within p n (if b then m1 else m2).
Proof. now destruct b. Qed.

Lemma within_client_get (P : providers) (r : request) :
  within p (hit p (EGet r)) (client_get P r).
Proof.
  intros tr. exists [EGet r]. split; [reflexivity |].
  unfold count, hit. simpl. destruct (p (EGet r)); simpl; lia.
Qed.

Lemma within_sleep (s : Z) : within p (hit p (ESleep s)) (sleep s).
Proof.
  intros tr. exists [ESleep s]. split; [reflexivity |].
  unfold count, hit. simpl. destruct (p (ESleep s)); simpl; lia.
Qed.

Lemma within_count {A : Type} (n : nat) (m : M A) (tr d : trace) :
  within p n m -> snd (m tr) = tr ++ d -> (count p d <= n)%nat.
Proof.
  intros H E. destruct (H tr) as [d' [E' C]].
  rewrite E in E'. apply app_inv_head in E'. now subst d'.
Qed.

End Within.

(** The resolution counted with a predicate [p] that is satisfied by at
    most [a_search] of one search request, [a_coin] of one coin request,
    [a_eth] of one Ethplorer request, and for which one call of
    [get_token_id] stays within [per_id]. *)
Section ResolutionCost.

Variables (P : providers) (p : event -> bool).
Variables (a_coin a_eth per_id : nat).
Hypothesis coin_hits : forall id, (hit p (EGet (CoingeckoCoin id)) <= a_coin)%nat.
Hypothesis eth_hits : forall s, (hit p (EGet (EthplorerSearch s)) <= a_eth)%nat.
Hypothesis token_id_within :
  forall query, within p per_id (get_token_id P query).

Lemma within_get_contract (token_id : json) (query chain : string) :
  within p a_coin (_get_contract_from_coingecko P token_id query chain).
Proof.
  unfold _get_contract_from_coingecko.
  apply within_if.
  - eapply within_weaken; [| apply within_ret]. lia.
  - replace a_coin with (a_coin + 0)%nat by lia.
    apply within_bind.
    + eapply within_weaken; [apply coin_hits | apply within_client_get].
    + intros r. apply within_if; [apply within_ret |].
      change 0%nat with (0 + (0 + (0 + 0)))%nat.
      apply within_bind; [apply within_response_json | intros data].
      apply within_bind; [apply within_lift | intros pl].
      apply within_bind; [apply within_lift | intros c].
      apply within_ret.
Qed.

Lemma within_wrapped_loop (variants : list string) (chain : string) :
  within p (List.length variants * (per_id + a_coin))
         (wrapped_loop P variants chain).
Proof.
  induction variants as [| query rest IH]; simpl.
  - apply within_ret.
  - replace (per_id + a_coin + List.length rest * (per_id + a_coin))%nat
      with (per_id + (a_coin + List.length rest * (per_id + a_coin)))%nat
      by lia.
    apply within_bind; [apply token_id_within | intros token_id].
    apply within_bind; [apply within_get_contract | intros c].
    apply within_if; [| exact IH].
    eapply within_weaken; [| apply within_ret]. lia.
Qed.

Lemma within_ethplorer_fallback (symbol : string) :
  within p a_eth (ethplorer_fallback P symbol).
Proof.
  intros tr. exists [EGet (EthplorerSearch symbol)].
  split; [apply ethplorer_fallback_sends_once |].
  pose proof (eth_hits symbol) as H. unfold count, hit in *. simpl.
  destruct (p (EGet (EthplorerSearch symbol))); simpl; lia.
Qed.

Lemma within_get_token_contract (symbol chain : string) :
  within p (4 * (per_id + a_coin) + a_eth) (get_token_contract P symbol chain).
Proof.
  unfold get_token_contract.
  apply within_if; [eapply within_weaken; [| apply within_ret]; lia |].
  apply within_if; [eapply within_weaken; [| apply within_ret]; lia |].
  replace (4 * (per_id + a_coin) + a_eth)%nat
    with (per_id + (a_coin + (3 * (per_id + a_coin) + a_eth)))%nat by lia.
  apply within_bind; [apply token_id_within | intros token_id].
  apply within_bind; [apply within_get_contract | intros c].
  apply within_if; [eapply within_weaken; [| apply within_ret]; lia |].
  apply within_bind; [apply (within_wrapped_loop [_; _; _]) | intros [a |]].
  - eapply within_weaken; [| apply within_ret]. lia.
  - apply within_ethplorer_fallback.
Qed.

End ResolutionCost.

Lemma within_get_token_id_loop (P : providers) (p : event -> bool)
      (url : request) (l : list Z) :
  within p (List.length l * (hit p (EGet url) + hit p (ESleep 2)))
         (get_token_id_loop P url l).
Proof.
  induction l as [| a l IH]; simpl.
  - apply within_ret.
  - set (g := hit p (EGet url)). set (z := hit p (ESleep 2)).
    fold g z in IH.
    replace (g + z + List.length l * (g + z))%nat
      with (g + (z + List.length l * (g + z)))%nat by lia.
    apply within_bind; [apply within_client_get | intros r].
    apply within_if.
    + apply within_bind; [apply within_sleep | intros _; exact IH].
    + apply within_if;
        [eapply within_weaken; [| apply within_ret]; lia |].
      eapply within_weaken with (n := (0 + (0 + 0))%nat); [lia |].
      apply within_bind; [apply within_response_json | intros data].
      apply within_bind; [apply within_lift | intros coins].
      apply within_if; [apply within_ret |].
      change 0%nat with (0 + (0 + 0))%nat.
      apply within_bind; [apply within_lift | intros first].
      apply within_bind; [apply within_lift | intros id].
      apply within_ret.
Qed.

Lemma within_get_token_id (P : providers) (p : event -> bool) (n : nat) :
  (forall q, (hit p (EGet (CoingeckoSearch q)) + hit p (ESleep 2) <= n)%nat) ->
  forall query, within p (3 * n) (get_token_id P query).
Proof.
  intros H query. unfold get_token_id. rewrite retries_range.
  eapply within_weaken; [| apply within_get_token_id_loop].
  specialize (H (lower query)). simpl. lia.
Qed.

(** The events of a resolution under a predicate [Q] that holds of every
    request and of a pause of 2 seconds. *)
Section AddsAny.

Variables (P : providers) (Q : event -> Prop).
Hypothesis Q_get : forall r, Q (EGet r).
Hypothesis Q_sleep : Q (ESleep 2).

Ltac adds_any :=
  repeat first
    [ assumption
    | apply adds_bind; [| intros ? ]
    | apply adds_try_except; [| intros ? ]
    | apply adds_if
    | apply adds_client_get; apply Q_get
    | apply adds_sleep; exact Q_sleep
    | solve [ auto with adds ] ].

Lemma adds_any_get_token_id (query : string) : adds Q (get_token_id P query).
Proof.
  unfold get_token_id.
  induction (py_range 1 (3 + 1)) as [| a l IH]; simpl; adds_any.
Qed.

Lemma adds_any_get_contract (token_id : json) (query chain : string) :
  adds Q (_get_contract_from_coingecko P token_id query chain).
Proof. unfold _get_contract_from_coingecko. adds_any. Qed.

Lemma adds_any_wrapped_loop (variants : list string) (chain : string) :
  adds Q (wrapped_loop P variants chain).
Proof.
  induction variants as [| query rest IH]; simpl.
  - apply adds_ret.
  - apply adds_bind; [apply adds_any_get_token_id | intros token_id].
    apply adds_bind; [apply adds_any_get_contract | intros c].
    apply adds_if; [apply adds_ret | exact IH].
Qed.

Lemma adds_any_get_token_contract (symbol chain : string) :
  adds Q (get_token_contract P symbol chain).
Proof.
  unfold get_token_contract.
  apply adds_if; [apply adds_ret |].
  apply adds_if; [apply adds_ret |].
  apply adds_bind; [apply adds_any_get_token_id | intros token_id].
  apply adds_bind; [apply adds_any_get_contract | intros c].
  apply adds_if; [apply adds_ret |].
  apply adds_bind; [apply adds_any_wrapped_loop | intros [a |]].
  - apply adds_ret.
  - unfold ethplorer_fallback. adds_any.
Qed.

End AddsAny.

Lemma slept_pauses_of_2 (d : trace) :
  Forall pause_of_2 d -> slept d = 2 * Z.of_nat (count is_sleep d).
Proof.
  unfold count. induction 1 as [| e d He _ IH]; [reflexivity |].
  destruct e as [r | s | model pr];
    cbn [slept filter is_sleep List.length]; try exact IH.
  cbn [pause_of_2] in He. subst s. rewrite IH, Nat2Z.inj_succ. lia.
Qed.

(** X6. One call of [get_token_contract] sends at most 17 requests - at
    most 12 searches, 4 coin lookups and 1 request to Ethplorer - and
    pauses at most 12 times, 24 seconds in all. *)
Theorem resolution_cost :
  forall (P : providers) (symbol chain : string) (tr : trace),
  exists d : trace,
    snd (get_token_contract P symbol chain tr) = tr ++ d
    /\ (count is_search d <= 12)%nat
    /\ (count is_coin d <= 4)%nat
    /\ (count is_ethplorer d <= 1)%nat
    /\ (count is_get d <= 17)%nat
    /\ (count is_sleep d <= 12)%nat
    /\ 0 <= slept d <= 24.
Proof.
  intros P symbol chain tr.
  destruct (adds_any_get_token_contract P pause_of_2 (fun _ => I) eq_refl
                                        symbol chain tr) as [d [E F]].
  exists d. split; [exact E |].
  assert (W : forall (p : event -> bool) (a_search a_coin a_eth a_sleep : nat),
             (forall q, hit p (EGet (CoingeckoSearch q)) = a_search) ->
             (forall id, hit p (EGet (CoingeckoCoin id)) = a_coin) ->
             (forall s, hit p (EGet (EthplorerSearch s)) = a_eth) ->
             hit p (ESleep 2) = a_sleep ->
             (count p d
              <= 4 * (3 * (a_search + a_sleep) + a_coin) + a_eth)%nat).
  { intros p a_search a_coin a_eth a_sleep Hs Hc He Hz.
    apply (within_count p _ (get_token_contract P symbol chain) tr d);
      [| exact E].
    apply within_get_token_contract.
    - intros id. rewrite Hc. lia.
    - intros s. rewrite He. lia.
    - apply within_get_token_id. intros q. rewrite Hs, Hz. lia. }
  pose proof (W is_search 1 0 0 0
                (fun _ => eq_refl) (fun _ => eq_refl) (fun _ => eq_refl)
                eq_refl)%nat as W1.
  pose proof (W is_coin 0 1 0 0
                (fun _ => eq_refl) (fun _ => eq_refl) (fun _ => eq_refl)
                eq_refl)%nat as W2.
  pose proof (W is_ethplorer 0 0 1 0
                (fun _ => eq_refl) (fun _ => eq_refl) (fun _ => eq_refl)
                eq_refl)%nat as W3.
  pose proof (W is_get 1 1 1 0
                (fun _ => eq_refl) (fun _ => eq_refl) (fun _ => eq_refl)
                eq_refl)%nat as W4.
  pose proof (W is_sleep 0 0 0 1
                (fun _ => eq_refl) (fun _ => eq_refl) (fun _ => eq_refl)
                eq_refl)%nat as W5.
  rewrite (slept_pauses_of_2 d F).
  repeat split; lia.
Qed.

Lemma get_token_id_not_limited (P : providers) (query : string) (tr : trace) :
  never_rate_limited P ->
  snd (get_token_id P query tr)
  = tr ++ [EGet (CoingeckoSearch (lower query))].
Proof.
  intros H. unfold get_token_id. rewrite retries_range.
  apply loop_last_attempt. apply H.
Qed.

(** X7. Pauses come from 429 answers only: against providers that never
    answer 429, one call of [get_token_contract] does not pause at all and
    sends at most 9 requests - 4 searches, 4 coin lookups and 1 request
    to Ethplorer. *)
Theorem resolution_cost_without_rate_limit :
  forall (P : providers) (symbol chain : string) (tr : trace),
    never_rate_limited P ->
    exists d : trace,
      snd (get_token_contract P symbol chain tr) = tr ++ d
      /\ (count is_search d <= 4)%nat
      /\ (count is_get d <= 9)%nat
      /\ count is_sleep d = 0%nat
      /\ slept d = 0.
Proof.
  intros P symbol chain tr N.
  destruct (adds_any_get_token_contract P pause_of_2 (fun _ => I) eq_refl
                                        symbol chain tr) as [d [E F]].
  exists d. split; [exact E |].
  assert (W : forall (p : event -> bool) (a_search a_coin a_eth : nat),
             (forall q, hit p (EGet (CoingeckoSearch q)) = a_search) ->
             (forall id, hit p (EGet (CoingeckoCoin id)) = a_coin) ->
             (forall s, hit p (EGet (EthplorerSearch s)) = a_eth) ->
             (count p d <= 4 * (a_search + a_coin) + a_eth)%nat).
  { intros p a_search a_coin a_eth Hs Hc He.
    apply (within_count p _ (get_token_contract P symbol chain) tr d);
      [| exact E].
    apply within_get_token_contract.
    - intros id. rewrite Hc. lia.
    - intros s. rewrite He. lia.
    - intros query t. exists [EGet (CoingeckoSearch (lower query))].
      split; [now apply get_token_id_not_limited |].
      specialize (Hs (lower query)). unfold count, hit in *. simpl.
      destruct (p (EGet (CoingeckoSearch (lower query)))); simpl; lia. }
  pose proof (W is_search 1 0 0
                (fun _ => eq_refl) (fun _ => eq_refl) (fun _ => eq_refl))%nat
    as W1.
  pose proof (W is_get 1 1 1
                (fun _ => eq_refl) (fun _ => eq_refl) (fun _ => eq_refl))%nat
    as W2.
  pose proof (W is_sleep 0 0 0
                (fun _ => eq_refl) (fun _ => eq_refl) (fun _ => eq_refl))%nat
    as W3.
  rewrite (slept_pauses_of_2 d F).
  repeat split; lia.
Qed.

Lemma resolution_cost_without_rate_limit_witness :
  never_rate_limited small_world
  /\ get_token_contract small_world "DOGE" "eth" []
     = (Ok (JStr "0xD06E"),
        [ EGet (CoingeckoSearch "doge");
          EGet (CoingeckoSearch "wrapped doge");
          EGet (CoingeckoSearch "wdoge");
          EGet (CoingeckoSearch "wrapped-doge");
          EGet (EthplorerSearch "DOGE") ])
  /\ exists d : trace,
       snd (get_token_contract small_world "DOGE" "eth" []) = [] ++ d
       /\ (count is_get d <= 9)%nat /\ slept d = 0.
Proof.
  assert (N : never_rate_limited small_world).
  { intros tr [q | id | s | a c]; simpl.
    - destruct (String.eqb q "btc"); reflexivity.
    - reflexivity.
    - destruct (String.eqb s "DOGE"); reflexivity.
    - reflexivity. }
  split; [exact N |]. split; [reflexivity |].
  destruct (resolution_cost_without_rate_limit small_world "DOGE" "eth" [] N)
    as [d [E [_ [G [_ Z]]]]].
  exists d. split; [exact E |]. split; [exact G | exact Z].
Defined.

(* ===================================================================== *)
(** ** The place of Ethplorer in a run *)
(* ===================================================================== *)

Lemma count_attempts_429_search (k : nat) (q : string) :
  count is_search (attempts_429 k (CoingeckoSearch q)) = k.
Proof.
  unfold count. induction k as [| k IH]; simpl; [reflexivity |].
  now rewrite IH.
Qed.

(** A call of [get_token_id] adds Coingecko events only, among them at
    least one search. *)
Lemma get_token_id_searches (P : providers) (query : string) (tr : trace) :
  exists d : trace,
    snd (get_token_id P query tr) = tr ++ d
    /\ Forall coingecko_event d
    /\ (1 <= count is_search d)%nat.
Proof.
  unfold get_token_id. rewrite retries_range.
  assert (F : forall k, Forall coingecko_event
                          (attempts_429 k (CoingeckoSearch (lower query)))).
  { induction k; simpl; repeat constructor; assumption. }
  destruct (loop_shape P (CoingeckoSearch (lower query)) [1; 2; 3] tr)
    as [k [[_ E] | [K E]]]; rewrite E; eexists; (split; [reflexivity |]).
  - split.
    + apply Forall_app. split; [apply F | repeat constructor].
    + rewrite count_app, count_attempts_429_search. unfold count. simpl. lia.
  - split; [apply F |].
    rewrite count_attempts_429_search. simpl in K. lia.
Qed.

Lemma coingecko_lookup_searches (P : providers) (query chain : string)
      (tr : trace) :
  exists d : trace,
    snd (coingecko_lookup P query chain tr) = tr ++ d
    /\ Forall coingecko_event d
    /\ (1 <= count is_search d)%nat.
Proof.
  unfold coingecko_lookup, bind.
  destruct (get_token_id_searches P query tr) as [d [E [F C]]].
  destruct (get_token_id P query tr) as [[token_id | e] t]; simpl in E; subst t.
  - rewrite contract_delta. destruct (truthy token_id).
    + exists (d ++ [EGet (CoingeckoCoin token_id)]). rewrite app_assoc.
      split; [reflexivity |]. split.
      * apply Forall_app. split; [exact F | repeat constructor].
      * rewrite count_app. lia.
    + exists d. auto.
  - exists d. auto.
Qed.

(** The loop over the wrapped variants adds Coingecko events only; when it
    runs to its end it has searched once or more for every variant. *)
Lemma wrapped_loop_searches (P : providers) (variants : list string)
      (chain : string) :
  forall tr : trace,
  exists d : trace,
    snd (wrapped_loop P variants chain tr) = tr ++ d
    /\ Forall coingecko_event d
    /\ (fst (wrapped_loop P variants chain tr) = Ok None ->
        (List.length variants <= count is_search d)%nat).
Proof.
  induction variants as [| query rest IH]; intros tr.
  - exists []. simpl. rewrite app_nil_r. repeat split; auto.
  - destruct (coingecko_lookup_searches P query chain tr) as [d [E [F C]]].
    destruct (coingecko_lookup P query chain tr) as [[c | e] t] eqn:L;
      simpl in E; subst t.
    + rewrite (wrapped_loop_step P query rest chain tr _ c L).
      destruct (truthy c).
      * exists d. simpl. repeat split; auto. discriminate.
      * destruct (IH (tr ++ d)) as [d' [E' [F' C']]].
        exists (d ++ d'). rewrite E', app_assoc. repeat split.
        -- now apply Forall_app.
        -- intros N. rewrite count_app. specialize (C' N). simpl. lia.
    + assert (W : wrapped_loop P (query :: rest) chain tr = (Raise e, tr ++ d)).
      { simpl. unfold coingecko_lookup in L. unfold bind in *.
        destruct (get_token_id P query tr) as [[token_id | e'] t1];
          [now rewrite L | now inversion L]. }
      rewrite W. exists d. simpl. repeat split; auto. discriminate.
Qed.

(** X8. Ethplorer comes last.  One call of [get_token_contract] sends at
    most one request to Ethplorer; if it does, that request is the final
    event of the call and at least four Coingecko searches precede it, one
    or more for the symbol and for each wrapped variant.  Everything
    before it is a Coingecko request or a pause. *)
Theorem ethplorer_comes_last :
  forall (P : providers) (symbol chain : string) (tr : trace),
  exists d : trace,
    snd (get_token_contract P symbol chain tr) = tr ++ d
    /\ (Forall coingecko_event d
        \/ exists d0 : trace,
             d = d0 ++ [EGet (EthplorerSearch symbol)]
             /\ Forall coingecko_event d0
             /\ (4 <= count is_search d0)%nat).
Proof.
  intros P symbol chain tr.
  destruct (short_circuited symbol) eqn:S.
  { exists []. rewrite app_nil_r. split; [| left; constructor].
    unfold short_circuited in S. unfold get_token_contract.
    destruct (py_in (upper symbol) ["ETH"; "ETHEREUM"]); [reflexivity |].
    simpl in S. unfold py_in. simpl. now rewrite S. }
  destruct (coingecko_lookup_searches P symbol chain tr) as [d [E [F C]]].
  destruct (coingecko_lookup P symbol chain tr) as [[c | e] t] eqn:L;
    simpl in E; subst t.
  - destruct (truthy c) eqn:T.
    + exists d. split; [| now left].
      unfold short_circuited in S. apply orb_false_iff in S.
      destruct S as [S1 S2]. unfold get_token_contract. rewrite S1, S2.
      rewrite (lookup_then P symbol chain _ tr _ c L). now rewrite T.
    + rewrite (get_token_contract_primary_failed P symbol chain tr _ c S L T).
      unfold bind.
      destruct (wrapped_loop_searches
                  P [ ("wrapped " ++ symbol)%string;
                      ("w" ++ lower symbol)%string;
                      ("wrapped-" ++ lower symbol)%string ] chain (tr ++ d))
        as [d' [E' [F' C']]].
      destruct (wrapped_loop P _ chain (tr ++ d)) as [[[a |] | e] t];
        simpl in E', C'; subst t.
      * exists (d ++ d'). rewrite app_assoc. split; [reflexivity |].
        left. now apply Forall_app.
      * exists ((d ++ d') ++ [EGet (EthplorerSearch symbol)]).
        rewrite ethplorer_fallback_sends_once, !app_assoc.
        split; [reflexivity |]. right. exists (d ++ d').
        split; [reflexivity |]. split; [now apply Forall_app |].
        rewrite count_app. specialize (C' eq_refl). lia.
      * exists (d ++ d'). rewrite app_assoc. split; [reflexivity |].
        left. now apply Forall_app.
  - exists d. split; [| now left].
    unfold short_circuited in S. apply orb_false_iff in S.
    destruct S as [S1 S2]. unfold get_token_contract. rewrite S1, S2.
    unfold coingecko_lookup in L. unfold bind in *.
    destruct (get_token_id P symbol tr) as [[token_id | e'] t1];
      [now rewrite L | exact (f_equal snd L)].
Qed.

(* ===================================================================== *)
(** ** Providers without memory, and providers that are down *)
(* ===================================================================== *)

Section Uniform.

Lemma uniform_ret {A : Type} (a : A) : uniform (ret a).
Proof. exists (Ok a), []. intros tr. unfold ret. now rewrite app_nil_r. Qed.

Lemma uniform_raise {A : Type} (e : exn) : uniform (@raise A e).
Proof. exists (Raise e), []. intros tr. unfold raise. now rewrite app_nil_r. Qed.

Lemma uniform_lift {A : Type} (r : result A) : uniform (lift r).
Proof. exists r, []. intros tr. unfold lift. now rewrite app_nil_r. Qed.

Lemma uniform_response_json (r : response) : uniform (response_json r).
Proof.
  unfold response_json.
  destruct (parsed r); [apply uniform_raise | apply uniform_ret].
Qed.

Lemma uniform_sleep (s : Z) : uniform (sleep s).
Proof. exists (Ok tt), [ESleep s]. reflexivity. Qed.

Lemma uniform_bind {A B : Type} (m : M A) (k : A -> M B) :
  uniform m -> (forall a, uniform (k a)) -> uniform (bind m k).
Proof.
  intros [[a | e] [d Hm]] Hk.
  - destruct (Hk a) as [r' [d' Hk']]. exists r', (d ++ d'). intros tr.
    unfold bind. now rewrite Hm, Hk', app_assoc.
  - exists (Raise e), d. intros tr. unfold bind. now rewrite Hm.
Qed.

Lemma uniform_try_except {A : Type} (m : M A) (handled : exn -> bool)
      (h : exn -> M A) :
  uniform m -> (forall e, uniform (h e)) -> uniform (try_except m handled h).
Proof.
  intros [[a | e] [d Hm]] Hh.
  - exists (Ok a), d. intros tr. unfold try_except. now rewrite Hm.
  - destruct (handled e) eqn:C.
    + destruct (Hh e) as [r' [d' Hh']]. exists r', (d ++ d'). intros tr.
      unfold try_except. now rewrite Hm, C, Hh', app_assoc.
    + exists (Raise e), d. intros tr. unfold try_except. now rewrite Hm, C.
Qed.

Lemma uniform_if {A : Type} (b : bool) (m1 m2 : M A) :
  uniform m1 -> uniform m2 -> uniform (if b then m1 else m2).
Proof. now destruct b. Qed.

Variable P : providers.
Hypothesis no_memory : history_independent P.

Lemma uniform_client_get (r : request) : uniform (client_get P r).
Proof.
  exists (http_get P [] r), [EGet r]. intros tr. unfold client_get.
  now rewrite (no_memory tr [] r).
Qed.

Ltac uniform_steps :=
  repeat first
    [ assumption
    | apply uniform_bind; [| intros ? ]
    | apply uniform_try_except; [| intros ? ]
    | apply uniform_if
    | apply uniform_client_get
    | apply uniform_sleep
    | apply uniform_response_json
    | apply uniform_ret
    | apply uniform_lift ].

Lemma uniform_get_token_id (query : string) : uniform (get_token_id P query).
Proof.
  unfold get_token_id.
  induction (py_range 1 (3 + 1)) as [| a l IH]; simpl; uniform_steps.
Qed.

Lemma uniform_get_contract (token_id : json) (query chain : string) :
  uniform (_get_contract_from_coingecko P token_id query chain).
Proof. unfold _get_contract_from_coingecko. uniform_steps. Qed.

Lemma uniform_wrapped_loop (variants : list string) (chain : string) :
  uniform (wrapped_loop P variants chain).
Proof.
  induction variants as [| query rest IH]; simpl.
  - apply uniform_ret.
  - apply uniform_bind; [apply uniform_get_token_id | intros token_id].
    apply uniform_bind; [apply uniform_get_contract | intros c].
    apply uniform_if; [apply uniform_ret | exact IH].
Qed.

Lemma uniform_get_token_contract (symbol chain : string) :
  uniform (get_token_contract P symbol chain).
Proof.
  unfold get_token_contract.
  apply uniform_if; [apply uniform_ret |].
  apply uniform_if; [apply uniform_ret |].
  apply uniform_bind; [apply uniform_get_token_id | intros token_id].
  apply uniform_bind; [apply uniform_get_contract | intros c].
  apply uniform_if; [apply uniform_ret |].
  apply uniform_bind; [apply uniform_wrapped_loop | intros [a |]].
  - apply uniform_ret.
  - unfold ethplorer_fallback. uniform_steps.
Qed.

Lemma uniform_get_crypto_price (symbol chain : string) :
  uniform (get_crypto_price P symbol chain).
Proof.
  unfold get_crypto_price.
  apply uniform_bind; [apply uniform_get_token_contract | intros address].
  uniform_steps.
Qed.

Lemma uniform_get_crypto_metadata (symbol chain : string) :
  uniform (get_crypto_metadata P symbol chain).
Proof.
  unfold get_crypto_metadata.
  apply uniform_bind; [apply uniform_get_token_contract | intros address].
  uniform_steps.
Qed.

End Uniform.

(** X9. Repeating a call changes nothing.  When the answers of the HTTP
    providers depend on the request only, [get_token_contract],
    [get_crypto_price] and [get_crypto_metadata] return the same outcome
    and send the same requests from whatever trace they start, so a second
    call returns what the first returned. *)
Theorem repeated_calls_agree :
  forall (P : providers) (symbol chain : string),
    history_independent P ->
    uniform (get_token_contract P symbol chain)
    /\ uniform (get_crypto_price P symbol chain)
    /\ uniform (get_crypto_metadata P symbol chain)
    /\ (forall tr : trace,
           fst (get_crypto_price P symbol chain
                  (snd (get_crypto_price P symbol chain tr)))
           = fst (get_crypto_price P symbol chain tr)).
Proof.
  intros P symbol chain H.
  pose proof (uniform_get_crypto_price P H symbol chain) as U.
  repeat split.
  - now apply uniform_get_token_contract.
  - exact U.
  - now apply uniform_get_crypto_metadata.
  - intros tr. destruct U as [r [d U]]. now rewrite !U.
Qed.

Lemma repeated_calls_agree_witness :
  history_independent small_world
  /\ fst (get_crypto_price small_world "BTC" "eth"
            (snd (get_crypto_price small_world "BTC" "eth" [])))
     = fst (get_crypto_price small_world "BTC" "eth" []).
Proof.
  assert (H : history_independent small_world) by (intros tr tr' req; reflexivity).
  split; [exact H |].
  apply (proj2 (proj2 (proj2 (repeated_calls_agree small_world "BTC" "eth" H)))).
Defined.

Lemma ethplorer_fallback_non_200 (P : providers) (symbol : string)
      (tr : trace) (r : response) :
  http_get P tr (EthplorerSearch symbol) = Ok r ->
  status_code r <> 200 ->
  ethplorer_fallback P symbol tr
  = (Ok JNull, tr ++ [EGet (EthplorerSearch symbol)]).
Proof.
  intros Hr N. unfold ethplorer_fallback, try_except, bind, client_get.
  rewrite Hr. apply Z.eqb_neq in N. now rewrite N.
Qed.

Lemma get_token_contract_outage (P : providers) (symbol chain : string)
      (tr : trace) :
  answers_never_200 P ->
  py_in (upper symbol) ["ETH"; "ETHEREUM"] = false ->
  exists t : trace, get_token_contract P symbol chain tr = (Ok JNull, t).
Proof.
  intros H N.
  destruct (py_in (upper symbol) ["SOL"; "SOLANA"; "XLM"; "STELLAR"]) eqn:U.
  { exists tr. unfold get_token_contract. now rewrite N, U. }
  assert (S : short_circuited symbol = false)
    by (unfold short_circuited; now rewrite N, U).
  destruct (coingecko_lookup_non_200 P H symbol chain tr) as [t0 E0].
  rewrite (get_token_contract_primary_failed P symbol chain tr t0 JNull
             S E0 eq_refl).
  unfold bind.
  destruct (coingecko_lookup_non_200 P H ("wrapped " ++ symbol)%string chain t0)
    as [t1 E1].
  rewrite (wrapped_loop_step P _ _ chain t0 t1 JNull E1). cbn [truthy].
  destruct (coingecko_lookup_non_200 P H ("w" ++ lower symbol)%string chain t1)
    as [t2 E2].
  rewrite (wrapped_loop_step P _ _ chain t1 t2 JNull E2). cbn [truthy].
  destruct (coingecko_lookup_non_200 P H ("wrapped-" ++ lower symbol)%string
                                     chain t2) as [t3 E3].
  rewrite (wrapped_loop_step P _ _ chain t2 t3 JNull E3). cbn [truthy].
  simpl. destruct (H t3 (EthplorerSearch symbol)) as [r [Hr Hs]].
  eexists. now apply (ethplorer_fallback_non_200 P symbol t3 r).
Qed.



(* ===================================================================== *)
(** ** The aggregator, answer by answer *)
(* ===================================================================== *)

Section Priced.

Variables (P : providers) (symbol chain : string) (tr t : trace).
Variables (address : json) (r : response).
Hypothesis resolved : get_token_contract P symbol chain tr = (Ok address, t).
Hypothesis present : truthy address = true.
Hypothesis answered : http_get P t (MoralisPrice address chain) = Ok r.

Let sent := t ++ [EGet (MoralisPrice address chain)].

Let status_error :=
  JObj [ ("error", JStr ("Moralis API error. Code: "
                         ++ str_of_Z (status_code r))%string);
         ("response", JStr (text r)) ].

Lemma price_after_request :
  get_crypto_price P symbol chain tr
  = if negb (status_code r =? 200) then (Ok status_error, sent)
    else match parsed r with
         | Malformed msg =>
             (Ok (JObj [ ("error", JStr "Invalid JSON response from Moralis API");
                         ("response", JStr (text r)) ]), sent)
         | Parsed (JObj m) => (Ok (price_record symbol m), sent)
         | Parsed data =>
             (Raise (AttributeError
                       ("'" ++ py_type_name data
                        ++ "' object has no attribute 'get'")%string), sent)
         end.
Proof.
  unfold get_crypto_price, bind at 1. rewrite resolved, present. cbn [negb].
  unfold bind at 1, client_get. rewrite answered.
  destruct (negb (status_code r =? 200)); [reflexivity |].
  unfold try_except, response_json.
  destruct (parsed r) as [msg | []]; reflexivity.
Qed.

Lemma metadata_after_request :
  get_crypto_metadata P symbol chain tr
  = if negb (status_code r =? 200) then (Ok status_error, sent)
    else match parsed r with
         | Malformed msg =>
             (Ok (JObj [ ("error", JStr ("JSON processing error: " ++ msg)%string) ]),
              sent)
         | Parsed (JObj m) =>
             (Ok (if truthy (field_or_none m "tokenAddress")
                  then metadata_record m else address_not_found), sent)
         | Parsed data =>
             (Ok (JObj [ ("error",
                          JStr ("JSON processing error: '" ++ py_type_name data
                                ++ "' object has no attribute 'get'")%string) ]),
              sent)
         end.
Proof.
  destruct (status_code r =? 200) eqn:S.
  - apply Z.eqb_eq in S. cbn [negb].
    destruct (parsed r) as [msg | data] eqn:B.
    + unfold get_crypto_metadata, bind at 1. rewrite resolved, present.
      cbn [negb]. unfold bind at 1, client_get. rewrite answered, S.
      unfold try_except, response_json. rewrite B. reflexivity.
    + destruct data;
        try (unfold get_crypto_metadata, bind at 1; rewrite resolved, present;
             cbn [negb]; unfold bind at 1, client_get; rewrite answered, S;
             unfold try_except, response_json; rewrite B; reflexivity).
      exact (metadata_of_object P symbol chain tr t address r m
                                resolved present answered S B).
  - unfold get_crypto_metadata, bind at 1. rewrite resolved, present.
    cbn [negb]. unfold bind at 1, client_get. rewrite answered, S.
    reflexivity.
Qed.

End Priced.

(** X11. A refusal of Moralis is reported, not retried.  After a resolved
    address, when Moralis answers with any status other than 200 (429
    included), [get_crypto_price] and [get_crypto_metadata] both return
    the dictionary with the status code in "error" and the body text in
    "response"; exactly one request was sent to Moralis, for the resolved
    address and the chain as given, and there was no pause after it. *)
Theorem moralis_refusal_is_reported :
  forall (P : providers) (symbol chain : string) (tr t : trace)
         (address : json) (r : response),
    get_token_contract P symbol chain tr = (Ok address, t) ->
    truthy address = true ->
    http_get P t (MoralisPrice address chain) = Ok r ->
    status_code r <> 200 ->
    let refusal :=
      JObj [ ("error", JStr ("Moralis API error. Code: "
                             ++ str_of_Z (status_code r))%string);
             ("response", JStr (text r)) ] in
    let sent := t ++ [EGet (MoralisPrice address chain)] in
    get_crypto_price P symbol chain tr = (Ok refusal, sent)
    /\ get_crypto_metadata P symbol chain tr = (Ok refusal, sent)
    /\ count is_moralis sent = S (count is_moralis tr)
    /\ slept sent = slept t.
Proof.
  intros P symbol chain tr t address r G T Hr N refusal sent.
  apply Z.eqb_neq in N. repeat split.
  - rewrite (price_after_request P symbol chain tr t address r G T Hr).
    now rewrite N.
  - rewrite (metadata_after_request P symbol chain tr t address r G T Hr).
    now rewrite N.
  - unfold sent. rewrite count_app.
    rewrite (proj1 (resolution_no_moralis P symbol chain tr t _ G)).
    unfold count. simpl. lia.
  - unfold sent. rewrite slept_app. simpl. lia.
Qed.

Lemma moralis_refusal_is_reported_witness :
  get_crypto_price moralis_rate_limited "ETH" "bsc" []
  = (Ok (JObj [ ("error", JStr "Moralis API error. Code: 429");
                ("response", JStr "Too Many Requests") ]),
     [ EGet (MoralisPrice (JStr WETH_ADDRESS) "bsc") ]).
Proof.
  refine (proj1 (moralis_refusal_is_reported
                   moralis_rate_limited "ETH" "bsc" [] [] (JStr WETH_ADDRESS)
                   (mkResponse 429 "Too Many Requests"
                      (Malformed "Expecting value: line 1 column 1 (char 0)"))
                   eq_refl eq_refl eq_refl _)).
  discriminate.
Defined.



(** Whatever [get_crypto_price] returns without raising is either the
    price record of a status-200 answer with a JSON object as body, or a
    dictionary that starts with the key "error" and has no price. *)
Lemma price_cases (P : providers) (symbol chain : string) (tr t : trace)
      (v : json) :
  get_crypto_price P symbol chain tr = (Ok v, t) ->
  (exists (address : json) (t0 : trace) (r : response)
          (m : list (string * json)),
      get_token_contract P symbol chain tr = (Ok address, t0)
      /\ truthy address = true
      /\ http_get P t0 (MoralisPrice address chain) = Ok r
      /\ status_code r = 200
      /\ parsed r = Parsed (JObj m)
      /\ v = price_record symbol m
      /\ t = t0 ++ [EGet (MoralisPrice address chain)])
  \/ (exists (msg : string) (rest : list (string * json)),
         v = JObj (("error", JStr msg) :: rest)
         /\ assoc "current_price" rest = None
         /\ (count is_moralis t <= S (count is_moralis tr))%nat).
Proof.
  intros H.
  destruct (get_token_contract P symbol chain tr) as [[address | e] t0] eqn:G.
  2:{ unfold get_crypto_price, bind in H. rewrite G in H. discriminate. }
  pose proof (proj1 (resolution_no_moralis P symbol chain tr t0 _ G)) as C.
  destruct (truthy address) eqn:T.
  2:{ unfold get_crypto_price, bind in H. rewrite G, T in H.
      inversion H. subst. right. do 2 eexists. repeat split. lia. }
  destruct (http_get P t0 (MoralisPrice address chain)) as [r | e] eqn:R.
  2:{ unfold get_crypto_price, bind, client_get in H.
      rewrite G, T in H. cbn [negb] in H. rewrite R in H. discriminate. }
  rewrite (price_after_request P symbol chain tr t0 address r G T R) in H.
  assert (C' : (count is_moralis (t0 ++ [EGet (MoralisPrice address chain)])
                <= S (count is_moralis tr))%nat).
  { rewrite count_app, C. unfold count. simpl. lia. }
  destruct (status_code r =? 200) eqn:S; cbn [negb] in H.
  2:{ inversion H. subst. right. do 2 eexists. repeat split. exact C'. }
  apply Z.eqb_eq in S.
  destruct (parsed r) as [msg | data] eqn:B.
  { inversion H. subst. right. do 2 eexists. repeat split. exact C'. }
  destruct data as [| b | n | f | s | l | m]; try discriminate H.
  inversion H. subst. left. exists address, t0, r, m. repeat split; auto.
Qed.

(** X13. The shape of what [get_crypto_price] returns.  A returned value
    is either the price record - nine keys, built from a status-200 answer
    of Moralis whose body is a JSON object - or a dictionary whose first
    key is "error" and which has none of the price record's keys
    "current_price", "price_change_percent" and "volume".  Either way at
    most one request went to Moralis. *)
Theorem price_is_record_or_error :
  forall (P : providers) (symbol chain : string) (tr t : trace) (v : json),
    get_crypto_price P symbol chain tr = (Ok v, t) ->
    (count is_moralis t <= S (count is_moralis tr))%nat
    /\ ((exists m : list (string * json), v = price_record symbol m)
        \/ (exists (msg : string) (rest : list (string * json)),
               v = JObj (("error", JStr msg) :: rest)
               /\ py_item v "current_price"
                  = Raise (KeyError (JStr "current_price"))
               /\ py_item v "price_change_percent"
                  = Raise (KeyError (JStr "price_change_percent"))
               /\ py_item v "volume" = Raise (KeyError (JStr "volume")))).
Proof.
  intros P symbol chain tr t v H.
  pose proof H as H'. apply price_cases in H'.
  destruct H' as [[address [t0 [r [m [G [T [R [S [B [E Et]]]]]]]]]]
                 | [msg [rest [E [N C]]]]].
  - split.
    + subst t. rewrite count_app.
      rewrite (proj1 (resolution_no_moralis P symbol chain tr t0 _ G)).
      unfold count. simpl. lia.
    + left. now exists m.
  - split; [exact C |]. right. exists msg, rest. split; [exact E |].
    (* the error dictionaries have one or two keys, "error" and "response" *)
    clear N C.
    unfold get_crypto_price, bind in H.
    destruct (get_token_contract P symbol chain tr) as [[address | e] t0];
      [| discriminate].
    destruct (truthy address); cbn [negb] in H.
    2:{ inversion H. subst. inversion H1. subst. repeat split. }
    unfold client_get in H.
    destruct (http_get P t0 (MoralisPrice address chain)) as [r | e];
      [| discriminate].
    destruct (negb (status_code r =? 200)).
    { inversion H. subst. inversion H1. subst. repeat split. }
    unfold try_except, response_json, bind, ret, raise, lift in H.
    destruct (parsed r) as [m' | data].
    { cbn in H. inversion H. subst. inversion H1. subst. repeat split. }
    destruct data; cbn in H; try discriminate H.
    inversion H. subst. discriminate H1.
Qed.

Lemma price_is_record_or_error_witness :
  (count is_moralis
         (snd (get_crypto_price moralis_html "ETH" "eth" [])) <= 1)%nat.
Proof.
  exact (proj1 (price_is_record_or_error
                  moralis_html "ETH" "eth" []
                  [ EGet (MoralisPrice (JStr WETH_ADDRESS) "eth") ]
                  (JObj [ ("error", JStr "Invalid JSON response from Moralis API");
                          ("response", JStr "<html>Bad gateway</html>") ])
                  eq_refl)).
Defined.

(** X14. [get_crypto_metadata] turns every answer of Moralis into a
    dictionary.  Once the resolution has returned a value and, if that
    value is an address, the request to Moralis is answered at all,
    [get_crypto_metadata] does not raise: it returns the metadata record,
    with a truthy tokenAddress, or a dictionary whose first key is
    "error". *)
Theorem metadata_always_answers :
  forall (P : providers) (symbol chain : string) (tr t0 : trace)
         (address : json),
    get_token_contract P symbol chain tr = (Ok address, t0) ->
    (truthy address = true ->
     exists r : response, http_get P t0 (MoralisPrice address chain) = Ok r) ->
    exists (v : json) (t : trace),
      get_crypto_metadata P symbol chain tr = (Ok v, t)
      /\ ((exists m : list (string * json),
              v = metadata_record m
              /\ truthy (field_or_none m "tokenAddress") = true)
          \/ (exists (msg : string) (rest : list (string * json)),
                 v = JObj (("error", JStr msg) :: rest))).
Proof.
  intros P symbol chain tr t0 address G A.
  destruct (truthy address) eqn:T.
  - destruct (A eq_refl) as [r R].
    rewrite (metadata_after_request P symbol chain tr t0 address r G T R).
    destruct (negb (status_code r =? 200)).
    { do 2 eexists. split; [reflexivity |]. right. eauto. }
    destruct (parsed r) as [msg | data].
    { do 2 eexists. split; [reflexivity |]. right. eauto. }
    destruct data as [| b | n | f | s | l | m];
      try (do 2 eexists; split; [reflexivity |]; right; solve [eauto]).
    destruct (truthy (field_or_none m "tokenAddress")) eqn:F;
      do 2 eexists; (split; [reflexivity |]).
    + left. eauto.
    + right. unfold address_not_found. eauto.
  - unfold get_crypto_metadata, bind. rewrite G, T. cbn [negb].
    do 2 eexists. split; [reflexivity |]. right. eauto.
Qed.

Lemma metadata_always_answers_witness :
  exists (v : json) (t : trace),
    get_crypto_metadata moralis_list "ETH" "eth" [] = (Ok v, t).
Proof.
  destruct (metadata_always_answers
              moralis_list "ETH" "eth" [] [] (JStr WETH_ADDRESS) eq_refl
              (fun _ => ex_intro _ (mkResponse 200 "<json>" (Parsed (JArr [])))
                                 eq_refl))
    as [v [t [E _]]].
  exists v, t. exact E.
Defined.

(* ===================================================================== *)
(** ** The report *)
(* ===================================================================== *)

Lemma report_after_price (P : providers) (symbol : string) (tr t : trace)
      (m : list (string * json)) :
  get_crypto_price P symbol "eth" tr = (Ok (price_record symbol m), t) ->
  generate_crypto_report P symbol tr
  = match chat_create P t report_model (report_prompt symbol m) with
    | Ok (summary :: _) =>
        (Ok (report_of symbol m summary),
         t ++ [EChat report_model (report_prompt symbol m)])
    | Ok [] =>
        (Raise (IndexError "list index out of range"),
         t ++ [EChat report_model (report_prompt symbol m)])
    | Raise e => (Raise e, t ++ [EChat report_model (report_prompt symbol m)])
    end.
Proof.
  intros H.
  unfold generate_crypto_report, bind, lift, ret, chat_completions_create.
  rewrite H. unfold price_record, report_model, report_prompt, report_of.
  cbn -[field_or_na].
  destruct (chat_create P t _ _) as [[| summary others] | e]; reflexivity.
Qed.





(* ===================================================================== *)
(** ** The unused Coingecko price *)
(* ===================================================================== *)

(** X17. The outcomes of [get_crypto_price_coingecko].  It requests
    "simple/price" for the lower-cased symbol.  Any status other than 200
    gives the dictionary {"error": "Unable to retrieve data from
    Coingecko"}.  A 200 answer that is a dictionary gives the record with
    the symbol as it was passed, the source "Coingecko", and as price the
    "usd" entry of the dictionary stored under the lower-cased symbol -
    "N/A" when the answer has no entry for the symbol or that entry has no
    "usd". *)
Theorem coingecko_price_outcomes :
  forall (get : string -> result response) (symbol : string) (r : response),
    get ("https://api.coingecko.com/api/v3/simple/price?ids="
         ++ lower symbol ++ "&vs_currencies=usd")%string = Ok r ->
    (status_code r <> 200 ->
     get_crypto_price_coingecko get symbol
     = Ok (JObj [ ("error", JStr "Unable to retrieve data from Coingecko") ]))
    /\ (forall m : list (string * json),
           status_code r = 200 ->
           parsed r = Parsed (JObj m) ->
           (assoc (lower symbol) m = None ->
            get_crypto_price_coingecko get symbol
            = Ok (JObj [ ("symbol", JStr symbol);
                         ("current_price", JStr "N/A");
                         ("source", JStr "Coingecko") ]))
           /\ (forall of_symbol : list (string * json),
                  assoc (lower symbol) m = Some (JObj of_symbol) ->
                  get_crypto_price_coingecko get symbol
                  = Ok (JObj [ ("symbol", JStr symbol);
                               ("current_price", field_or_na of_symbol "usd");
                               ("source", JStr "Coingecko") ]))).
Proof.
  intros get symbol r G. split.
  - intros N. unfold get_crypto_price_coingecko, coingecko_price_url.
    rewrite G. cbn [result_bind]. apply Z.eqb_neq in N. now rewrite N.
  - intros m S B. split.
    + intros A.
      unfold get_crypto_price_coingecko, coingecko_price_url, result_bind.
      rewrite G, S, B. cbn [Z.eqb Pos.eqb negb py_get]. rewrite A.
      reflexivity.
    + intros of_symbol A.
      unfold get_crypto_price_coingecko, coingecko_price_url, result_bind.
      rewrite G, S, B. cbn [Z.eqb Pos.eqb negb py_get]. rewrite A.
      reflexivity.
Qed.

Lemma coingecko_price_outcomes_witness :
  get_crypto_price_coingecko simple_price_mock "Bitcoin"
  = Ok (JObj [ ("symbol", JStr "Bitcoin");
               ("current_price", JInt 65000);
               ("source", JStr "Coingecko") ])
  /\ get_crypto_price_coingecko simple_price_mock "BTC"
     = Ok (JObj [ ("error", JStr "Unable to retrieve data from Coingecko") ]).
Proof.
  split.
  - refine (proj2 (proj2 (coingecko_price_outcomes
                            simple_price_mock "Bitcoin"
                            (mkResponse 200 "<json>"
                               (Parsed (JObj [ ("bitcoin",
                                                JObj [ ("usd", JInt 65000) ]) ])))
                            eq_refl)
                         _ eq_refl eq_refl)
                  [ ("usd", JInt 65000) ] eq_refl).
  - refine (proj1 (coingecko_price_outcomes
                     simple_price_mock "BTC"
                     (mkResponse 404 "Not Found"
                        (Malformed "Expecting value: line 1 column 1 (char 0)"))
                     eq_refl) _).
    discriminate.
Defined.

(* ===================================================================== *)
(** ** What a resolution asks for *)
(* ===================================================================== *)

Lemma ascii_lower_idempotent (c : ascii) :
  ascii_lower (ascii_lower c) = ascii_lower c.
Proof. destruct c as [[] [] [] [] [] [] [] []]; reflexivity. Qed.

Lemma lower_idempotent (s : string) : lower (lower s) = lower s.
Proof.
  induction s as [| c s IH]; simpl; [reflexivity |].
  now rewrite ascii_lower_idempotent, IH.
Qed.

Lemma lower_app (a b : string) :
  lower (a ++ b)%string = (lower a ++ lower b)%string.
Proof. induction a as [| c a IH]; simpl; [reflexivity | now rewrite IH]. Qed.

Section Derived.

Variables (P : providers) (Q : event -> Prop).
Hypothesis Q_coin : forall id, Q (EGet (CoingeckoCoin id)).
Hypothesis Q_sleep : Q (ESleep 2).

Lemma adds_get_token_id_for (query : string) :
  Q (EGet (CoingeckoSearch (lower query))) ->
  adds Q (get_token_id P query).
Proof.
  intros Q_search tr.
  destruct (get_token_id_delta P query tr) as [d [E F]].
  exists d. split; [exact E |].
  eapply Forall_impl; [| exact F]. intros e [-> | ->]; assumption.
Qed.

Lemma adds_get_contract_for (token_id : json) (query chain : string) :
  adds Q (_get_contract_from_coingecko P token_id query chain).
Proof.
  intros tr. rewrite contract_delta. destruct (truthy token_id).
  - exists [EGet (CoingeckoCoin token_id)]. split; [reflexivity | auto].
  - exists []. now rewrite app_nil_r.
Qed.

Lemma adds_wrapped_loop_for (variants : list string) (chain : string) :
  Forall (fun query => Q (EGet (CoingeckoSearch (lower query)))) variants ->
  adds Q (wrapped_loop P variants chain).
Proof.
  induction 1 as [| query rest Hq _ IH]; simpl.
  - apply adds_ret.
  - apply adds_bind; [now apply adds_get_token_id_for | intros token_id].
    apply adds_bind; [apply adds_get_contract_for | intros c].
    apply adds_if; [apply adds_ret | exact IH].
Qed.

End Derived.


(** X19. The native asset is priced with one request.  For a symbol
    whose upper-case form is "ETH" or "ETHEREUM", [get_crypto_price] and
    [get_crypto_metadata] add exactly one event, whatever happens to it:
    the request to Moralis for the canonical wrapped-ether address, on the
    chain as it was passed - also when that chain is not Ethereum. *)
Theorem native_asset_priced_with_one_request :
  forall (P : providers) (symbol chain : string) (tr : trace),
    upper symbol = "ETH" \/ upper symbol = "ETHEREUM" ->
    let request := EGet (MoralisPrice (JStr WETH_ADDRESS) chain) in
    snd (get_crypto_price P symbol chain tr) = tr ++ [request]
    /\ snd (get_crypto_metadata P symbol chain tr) = tr ++ [request].
Proof.
  intros P symbol chain tr H request.
  assert (E : py_in (upper symbol) ["ETH"; "ETHEREUM"] = true).
  { apply py_in_In. destruct H as [H | H]; rewrite H; simpl; auto. }
  assert (G : get_token_contract P symbol chain tr
              = (Ok (JStr WETH_ADDRESS), tr)).
  { unfold get_token_contract. now rewrite E. }
  split.
  - destruct (http_get P tr (MoralisPrice (JStr WETH_ADDRESS) chain))
      as [r | e] eqn:R.
    + rewrite (price_after_request P symbol chain tr tr _ r G eq_refl R).
      destruct (negb (status_code r =? 200)); [reflexivity |].
      destruct (parsed r) as [msg | []]; reflexivity.
    + unfold get_crypto_price, bind, client_get. rewrite G. cbn. now rewrite R.
  - destruct (http_get P tr (MoralisPrice (JStr WETH_ADDRESS) chain))
      as [r | e] eqn:R.
    + rewrite (metadata_after_request P symbol chain tr tr _ r G eq_refl R).
      destruct (negb (status_code r =? 200)); [reflexivity |].
      destruct (parsed r) as [msg | []]; reflexivity.
    + unfold get_crypto_metadata, bind, client_get. rewrite G. cbn.
      now rewrite R.
Qed.

Lemma native_asset_priced_with_one_request_witness :
  snd (get_crypto_price connection_refused "Ethereum" "bsc" [])
  = [ EGet (MoralisPrice (JStr "0xC02aaa39b223FE8D0A0E5C4F27eAD9083C756Cc2")
                         "bsc") ].
Proof.
  refine (proj1 (native_asset_priced_with_one_request
                   connection_refused "Ethereum" "bsc" [] _)).
  right. reflexivity.
Defined.


(* ===================================================================== *)
(** ** The first coin of a search *)
(* ===================================================================== *)

(** X20. [get_token_id] reads the first coin only, and reads it unguarded.
    With a 200 answer at the first attempt whose "coins" is a list that
    starts with a dictionary, the result is that dictionary's "id"
    whatever the other coins are; when the first coin has no "id",
    [get_token_id] raises [KeyError('id')] even if a later coin has one. *)
Theorem token_id_reads_first_coin :
  forall (P : providers) (symbol : string) (tr : trace) (r : response)
         (m first : list (string * json)) (others : list json),
    http_get P tr (CoingeckoSearch (lower symbol)) = Ok r ->
    status_code r = 200 ->
    parsed r = Parsed (JObj m) ->
    assoc "coins" m = Some (JArr (JObj first :: others)) ->
    get_token_id P symbol tr
    = (match assoc "id" first with
       | Some token_id => Ok token_id
       | None => Raise (KeyError (JStr "id"))
       end,
       tr ++ [EGet (CoingeckoSearch (lower symbol))]).
Proof.
  intros P symbol tr r m first others Hr S B A.
  unfold get_token_id. rewrite retries_range. simpl.
  unfold bind at 1. unfold client_get. rewrite Hr, S.
  cbn [Z.eqb Pos.eqb negb]. unfold response_json. rewrite B.
  unfold bind, ret, lift, py_get. rewrite A.
  cbn [truthy negb py_first py_item].
  destruct (assoc "id" first); reflexivity.
Qed.

Lemma token_id_reads_first_coin_witness :
  get_token_id coin_without_id "BTC" []
  = (Raise (KeyError (JStr "id")), [EGet (CoingeckoSearch "btc")]).
Proof.
  exact (token_id_reads_first_coin
           coin_without_id "BTC" []
           (mkResponse 200 "<json>"
              (Parsed (JObj [ ("coins",
                               JArr [ JObj [ ("name", JStr "Bitcoin") ];
                                      JObj [ ("id", JStr "bitcoin") ] ]) ])))
           [ ("coins", JArr [ JObj [ ("name", JStr "Bitcoin") ];
                              JObj [ ("id", JStr "bitcoin") ] ]) ]
           [ ("name", JStr "Bitcoin") ]
           [ JObj [ ("id", JStr "bitcoin") ] ]
           eq_refl eq_refl eq_refl eq_refl).
Defined.
